(** * fhir_mcp_server.py: response validation, quality scoring and the
      gateway's outcome mapping

    A shallow embedding of [FHIRClient] (src/fhir_mcp_server.py): the
    request gateway [_make_request], the response validator
    [_validate_fhir_response], the scorer [_calculate_quality_score], the
    per-category loop [assess_data_quality] and the averaging done by the
    [assess_data_quality] branch of [handle_call_tool].

    Python values are modelled as the code sees them.  A decoded JSON
    document is a [json] value; a [dict] is a finite map with string keys
    (the code never depends on the order of the keys of a document); a
    string is the sequence of its bytes.  Operations that Python resolves
    at run time ([x.get], [k in x], [x[k]], [len], iteration, hashing) are
    functions into [result], which either returns a value or raises an
    exception.  Numbers of a document are Python [int]s; number literals
    with a fraction or an exponent are not represented.  Scores are the
    integers 100, 70, 50, ... that the code computes as floats; they are
    modelled by [Z], and the average of scores by an exact rational. *)

From Stdlib Require Import ZArith QArith Ascii DecimalString.
From stdpp Require Import gmap strings list fin_maps sorting.

Local Open Scope Z_scope.
#[local] Set Warnings "-register-all,-clear-no-such-hyp".

(** ** Exceptions and results *)

(** Instances of [Exception] that the modelled code can meet.  What
    [str(e)] prints for them is left to the [Runtime] below. *)
Inductive exn : Type :=
| TimeoutException (info : string)   (* httpx.TimeoutException and subclasses *)
| HTTPStatusError (status : Z)       (* raised by Response.raise_for_status *)
| HTTPError (info : string)          (* any other subclass of httpx.HTTPError *)
| JSONDecodeError (info : string)    (* json.JSONDecodeError *)
| AttributeError (type_name attr : string)
| TypeError (info : string)
| KeyError (key : string)
| ValueError (info : string)         (* raised by urljoin for a URL it rejects *)
| OtherException (info : string).    (* any other subclass of Exception *)

Inductive result (A : Type) : Type :=
| Ok (a : A)
| Raise (e : exn).
Arguments Ok {A} a.
Arguments Raise {A} e.

Global Instance result_ret : MRet result := fun A a => Ok a.

Global Instance result_bind : MBind result := fun A B k r =>
  match r with
  | Ok a => k a
  | Raise e => Raise e
  end.

(** ** JSON values *)

Inductive json : Type :=
| JNull
| JBool (b : bool)
| JNum (n : Z)
| JStr (s : string)
| JArr (items : list json)
| JObj (fields : gmap string json).

(** The name Python prints for the type of a value. *)
Definition type_name (v : json) : string :=
  match v with
  | JNull => "NoneType"
  | JBool _ => "bool"
  | JNum _ => "int"
  | JStr _ => "str"
  | JArr _ => "list"
  | JObj _ => "dict"
  end.

(** [a == b] where at least one side is [None], a [bool], an [int] or a
    [str]: [True == 1] and [False == 0] hold, a list or a dict equals none
    of them. *)
Definition py_eq (a b : json) : bool :=
  match a, b with
  | JNull, JNull => true
  | JBool x, JBool y => bool_decide (x = y)
  | JBool x, JNum n | JNum n, JBool x => Z.b2z x =? n
  | JNum n, JNum m => n =? m
  | JStr s, JStr t => bool_decide (s = t)
  | _, _ => false
  end.

(** [d.get(key, default)] on a dict. *)
Definition dict_get (d : gmap string json) (key : string) (default : json) : json :=
  match d !! key with
  | Some v => v
  | None => default
  end.

(** [x.get(key, default)] on any value: only a dict has the method. *)
Definition py_get (x : json) (key : string) (default : json) : result json :=
  match x with
  | JObj d => Ok (dict_get d key default)
  | _ => Raise (AttributeError (type_name x) "get")
  end.

(** [needle in s] for two strings. *)
Fixpoint is_prefix (p s : string) : bool :=
  match p, s with
  | EmptyString, _ => true
  | String a p', String b s' => bool_decide (a = b) && is_prefix p' s'
  | String _ _, EmptyString => false
  end.

Fixpoint is_substring (needle s : string) : bool :=
  is_prefix needle s ||
  match s with
  | EmptyString => false
  | String _ s' => is_substring needle s'
  end.

(** [key in x] for a string [key]: key membership on a dict, substring
    test on a string, element test on a list, [TypeError] otherwise. *)
Definition py_contains (key : string) (x : json) : result bool :=
  match x with
  | JObj d => Ok (bool_decide (is_Some (d !! key)))
  | JStr s => Ok (is_substring key s)
  | JArr items => Ok (existsb (py_eq (JStr key)) items)
  | _ => Raise (TypeError ("argument of type '" +:+ type_name x +:+ "' is not iterable"))
  end.

(** [x[key]] for a string [key]. *)
Definition py_getitem (x : json) (key : string) : result json :=
  match x with
  | JObj d =>
      match d !! key with
      | Some v => Ok v
      | None => Raise (KeyError key)
      end
  | JStr _ => Raise (TypeError "string indices must be integers")
  | JArr _ => Raise (TypeError "list indices must be integers or slices, not str")
  | _ => Raise (TypeError ("'" +:+ type_name x +:+ "' object is not subscriptable"))
  end.

Fixpoint chars (s : string) : list json :=
  match s with
  | EmptyString => []
  | String a s' => JStr (String a EmptyString) :: chars s'
  end.

(** The items a [for] loop (or a generator) draws from [x]: the elements
    of a list, the keys of a dict, the characters of a string. *)
Definition py_iter (x : json) : result (list json) :=
  match x with
  | JArr items => Ok items
  | JObj d => Ok (JStr <$> (map_to_list d).*1)
  | JStr s => Ok (chars s)
  | _ => Raise (TypeError ("'" +:+ type_name x +:+ "' object is not iterable"))
  end.

(** [len(x)]. *)
Definition py_len (x : json) : result nat :=
  match x with
  | JArr items => Ok (length items)
  | JObj d => Ok (size d)
  | JStr s => Ok (String.length s)
  | _ => Raise (TypeError ("object of type '" +:+ type_name x +:+ "' has no len()"))
  end.

(** Keys of a Python [set]: the hashable values, where [True] and [1]
    (and [False] and [0]) are one key. *)
Inductive pykey : Type :=
| KNone
| KInt (n : Z)
| KStr (s : string).

Global Instance pykey_eq_dec : EqDecision pykey.
Proof. solve_decision. Defined.

Global Instance pykey_countable : Countable pykey.
Proof.
  refine (inj_countable'
    (fun k => match k with
              | KNone => inl ()
              | KInt n => inr (inl n)
              | KStr s => inr (inr s)
              end)
    (fun c => match c with
              | inl _ => KNone
              | inr (inl n) => KInt n
              | inr (inr s) => KStr s
              end) _).
  by intros [].
Defined.

(** [hash(x)] as the key under which a set stores [x]. *)
Definition py_hash (x : json) : result pykey :=
  match x with
  | JNull => Ok KNone
  | JBool b => Ok (KInt (Z.b2z b))
  | JNum n => Ok (KInt n)
  | JStr s => Ok (KStr s)
  | _ => Raise (TypeError ("unhashable type: '" +:+ type_name x +:+ "'"))
  end.

(** [s.split('/')[-1]]: what follows the last ['/'], the whole string
    when there is none. *)
Fixpoint last_segment_from (acc s : string) : string :=
  match s with
  | EmptyString => acc
  | String a s' =>
      if bool_decide (a = "/"%char) then last_segment_from s' s'
      else last_segment_from acc s'
  end.

Definition last_segment (s : string) : string := last_segment_from s s.

(** [ref.split('/')[-1]] on any value: only a string has [split]. *)
Definition py_split_last (x : json) : result string :=
  match x with
  | JStr s => Ok (last_segment s)
  | _ => Raise (AttributeError (type_name x) "split")
  end.

(** [str(n)] for a length, as an f-string prints it. *)
Definition str_of_nat (n : nat) : string := NilZero.string_of_uint (Nat.to_uint n).

(** ** Validation results *)

(** One entry of [validation_result["issues"]]. *)
Record Issue : Type := mkIssue {
  severity : json;
  code : json;
  details : json
}.

(** [validation_result["data_quality"]]: the dictionary is built by
    [_validate_fhir_response] alone, with these keys; [None] is a key that
    is not in the dictionary, so [no_data_quality] is the empty dict.
    [resource_types] is the set that line 175 turns into a list, in an
    order Python does not fix. *)
Record DataQuality : Type := mkDataQuality {
  total_resources : option json;
  returned_resources : option nat;
  has_next_page : option bool;
  resource_types : option (gset pykey);
  orphaned_patient_refs : option nat
}.

Definition no_data_quality : DataQuality :=
  mkDataQuality None None None None None.

Record ValidationResult : Type := mkValidationResult {
  is_valid : bool;
  issues : list Issue;
  data_quality : DataQuality;
  resource_type : json
}.

(** ** [_validate_fhir_response] *)

(** Body of the loop over [response.get('issue', [])], lines 158-163. *)
Definition copy_issue (issue : json) : result Issue :=
  sev ← py_get issue "severity" (JStr "unknown");
  cod ← py_get issue "code" (JStr "unknown");
  det ← py_get issue "details" (JObj ∅);
  text ← py_get det "text" (JStr "No details");
  Ok (mkIssue sev cod text).

Fixpoint copy_issues (items : list json) : result (list Issue) :=
  match items with
  | [] => Ok []
  | issue :: rest =>
      copied ← copy_issue issue;
      others ← copy_issues rest;
      Ok (copied :: others)
  end.

(** [any(link.get('relation') == 'next' for link in links)], line 174:
    [any] stops at the first true element. *)
Fixpoint any_relation_next (links : list json) : result bool :=
  match links with
  | [] => Ok false
  | link :: rest =>
      relation ← py_get link "relation" JNull;
      if py_eq relation (JStr "next") then Ok true else any_relation_next rest
  end.

(** [set(entry.get('resource', {}).get('resourceType') for entry in
    entries if 'resource' in entry)], line 175. *)
Fixpoint collect_resource_types (entries : list json) (seen : gset pykey)
  : result (gset pykey) :=
  match entries with
  | [] => Ok seen
  | entry :: rest =>
      has_resource ← py_contains "resource" entry;
      if (has_resource : bool) then
        resource ← py_get entry "resource" (JObj ∅);
        rtype ← py_get resource "resourceType" JNull;
        key ← py_hash rtype;
        collect_resource_types rest (seen ∪ {[key]})
      else collect_resource_types rest seen
  end.

(** Body of the loop of lines 182-191 on the pair
    [(patient_refs, actual_patients)]. *)
Definition scan_entry (entry : json) (sets : gset pykey * gset pykey)
  : result (gset pykey * gset pykey) :=
  let '(patient_refs, actual_patients) := sets in
  resource ← py_get entry "resource" (JObj ∅);
  rtype ← py_get resource "resourceType" JNull;
  if py_eq rtype (JStr "Patient") then
    id ← py_get resource "id" JNull;
    key ← py_hash id;
    Ok (patient_refs, actual_patients ∪ {[key]})
  else
    has_subject ← py_contains "subject" resource;
    if (has_subject : bool) then
      subject ← py_getitem resource "subject";
      has_reference ← py_contains "reference" subject;
      if (has_reference : bool) then
        ref ← py_getitem subject "reference";
        has_slash ← py_contains "/" ref;
        if (has_slash : bool) then
          last ← py_split_last ref;
          Ok (patient_refs ∪ {[KStr last]}, actual_patients)
        else Ok sets
      else Ok sets
    else Ok sets.

Fixpoint scan_entries (entries : list json) (sets : gset pykey * gset pykey)
  : result (gset pykey * gset pykey) :=
  match entries with
  | [] => Ok sets
  | entry :: rest =>
      sets' ← scan_entry entry sets;
      scan_entries rest sets'
  end.

(** The issue appended at lines 196-200. *)
Definition orphaned_issue (n : nat) : Issue :=
  mkIssue (JStr "warning") (JStr "orphaned-references")
          (JStr ("Found " +:+ str_of_nat n +:+ " orphaned patient references")).

(** A Python set is true when it is not empty. *)
Definition set_truthy (s : gset pykey) : bool := negb (bool_decide (s = ∅)).

Definition _validate_fhir_response (response : gmap string json)
  : result ValidationResult :=
  let validation_result :=
    mkValidationResult true [] no_data_quality
      (dict_get response "resourceType" (JStr "Unknown")) in
  if py_eq (dict_get response "resourceType" JNull) (JStr "OperationOutcome") then
    items ← py_iter (dict_get response "issue" (JArr []));
    copied ← copy_issues items;
    Ok (mkValidationResult false copied no_data_quality
          (resource_type validation_result))
  else if py_eq (dict_get response "resourceType" JNull) (JStr "Bundle") then
    let entries := dict_get response "entry" (JArr []) in
    let total := dict_get response "total" (JNum 0) in
    returned ← py_len entries;
    links ← py_iter (dict_get response "link" (JArr []));
    next ← any_relation_next links;
    entry_items ← py_iter entries;
    rtypes ← collect_resource_types entry_items ∅;
    let quality :=
      mkDataQuality (Some total) (Some returned) (Some next) (Some rtypes) None in
    '(patient_refs, actual_patients) ← scan_entries entry_items (∅, ∅);
    if set_truthy patient_refs && set_truthy actual_patients then
      let orphaned := patient_refs ∖ actual_patients in
      if set_truthy orphaned then
        Ok (mkValidationResult true [orphaned_issue (size orphaned)]
              (mkDataQuality (Some total) (Some returned) (Some next)
                 (Some rtypes) (Some (size orphaned)))
              (resource_type validation_result))
      else
        Ok (mkValidationResult true [] quality (resource_type validation_result))
    else
      Ok (mkValidationResult true [] quality (resource_type validation_result))
  else
    Ok validation_result.

(** ** [_calculate_quality_score] *)

(** Body of the loop of lines 245-249. *)
Definition deduct_issue (score : Z) (issue : Issue) : Z :=
  if py_eq (severity issue) (JStr "error") then score - 30
  else if py_eq (severity issue) (JStr "warning") then score - 10
  else score.

Definition _calculate_quality_score (validation : ValidationResult) : Z :=
  if negb (is_valid validation) then 0
  else
    let score := 100 in
    let score := fold_left deduct_issue (issues validation) score in
    let quality := data_quality validation in
    let score :=
      if bool_decide (0 < default 0 (orphaned_patient_refs quality))%nat
      then score - 20 else score in
    let score :=
      if py_eq (default (JNum 0) (total_resources quality)) (JNum 0)
      then score - 50 else score in
    Z.max 0 score.

(** ** The HTTP client and the interpreter, as the code uses them *)

(** One call of [self.client.request(method=..., url=..., headers=...,
    **kwargs)]. *)
Record request : Type := mkRequest {
  req_method : string;
  req_url : string;
  req_headers : list (string * string);
  req_kwargs : list (string * json)
}.

(** What the code reads of an [httpx.Response]: [status_code] and the
    outcome of [response.json()]. *)
Record response : Type := mkResponse {
  status_code : Z;
  body_json : result json
}.

(** The world outside the program.  [client_request sent r] is the
    outcome of sending [r] after the requests [sent] (a response, or the
    exception the client raises); [exn_str] is [str(e)];
    [urljoin] is [urllib.parse.urljoin], which returns the joined URL or
    raises (a [ValueError] for a URL it rejects, such as [urljoin(base,
    "//[")]); [now_isoformat] is [datetime.now().isoformat()]. *)
Class Runtime : Type := {
  exn_str : exn → string;
  urljoin : string → string → result string;
  client_request : list request → request → result response;
  now_isoformat : list request → string
}.

(** [Response.raise_for_status] of httpx: any status outside 200..299
    raises [HTTPStatusError]. *)
Definition raise_for_status (r : response) : result unit :=
  if (200 <=? status_code r) && (status_code r <=? 299) then Ok ()
  else Raise (HTTPStatusError (status_code r)).

(** [FHIRClient] after [__init__]. *)
Record FHIRClient : Type := mkFHIRClient {
  base_url : string;
  auth_token : option string
}.

Definition _get_headers (self : FHIRClient) : list (string * string) :=
  let headers :=
    [("Accept", "application/fhir+json");
     ("Content-Type", "application/fhir+json")] in
  match auth_token self with
  | Some token =>
      if bool_decide (token = "") then headers
      else headers ++ [("Authorization", "Bearer " +:+ token)]
  | None => headers
  end.

(** The document every failure path of [_make_request] returns. *)
Definition operation_outcome (code text : string) : gmap string json :=
  {[ "resourceType" := JStr "OperationOutcome";
     "issue" := JArr [JObj {[ "severity" := JStr "error";
                              "code" := JStr code;
                              "details" := JObj {[ "text" := JStr text ]} ]}] ]}.

(** ** [_make_request] *)

(** Lines 95-101: [response.json()], the [result.get] of the progress
    message (only a dict has it), and the [JSONDecodeError] handler. *)
Definition decode_body `{Runtime} (r : response) : result (gmap string json) :=
  match body_json r with
  | Ok (JObj result) => Ok result
  | Ok other => Raise (AttributeError (type_name other) "get")
  | Raise (JSONDecodeError info) =>
      Ok (operation_outcome "invalid"
            ("Invalid JSON response: " +:+ exn_str (JSONDecodeError info)))
  | Raise e => Raise e
  end.

(** Lines 76-101: the body of the outer [try]. *)
Definition request_body `{Runtime} (endpoint : string) (reply : result response)
  : result (gmap string json) :=
  r ← reply;
  if status_code r =? 404 then
    Ok (operation_outcome "not-found" ("Resource not found: " +:+ endpoint))
  else if status_code r =? 401 then
    Ok (operation_outcome "security" "Authentication required")
  else if status_code r =? 403 then
    Ok (operation_outcome "forbidden" "Access forbidden")
  else
    _ ← raise_for_status r;
    decode_body r.

(** Lines 103-111: the three [except] clauses, in their order.
    [TimeoutException] is a subclass of [HTTPError] and is caught first. *)
Definition handle_exceptions `{Runtime} (attempt : result (gmap string json))
  : result (gmap string json) :=
  match attempt with
  | Ok document => Ok document
  | Raise (TimeoutException _) =>
      Ok (operation_outcome "timeout" "Request timed out")
  | Raise (HTTPStatusError status) =>
      Ok (operation_outcome "exception"
            ("HTTP error: " +:+ exn_str (HTTPStatusError status)))
  | Raise (HTTPError info) =>
      Ok (operation_outcome "exception"
            ("HTTP error: " +:+ exn_str (HTTPError info)))
  | Raise e =>
      Ok (operation_outcome "exception" ("Unexpected error: " +:+ exn_str e))
  end.

(** Lines 72-73: the URL and the headers of the request [_make_request]
    is about to send.  They are computed before the [try]. *)
Definition build_request `{Runtime} (self : FHIRClient) (method endpoint : string)
    (kwargs : list (string * json)) : result request :=
  url ← urljoin (base_url self +:+ "/") endpoint;
  Ok (mkRequest method url (_get_headers self) kwargs).

(** [_make_request]: the document returned, or the exception raised, and
    the requests sent so far.  An exception of line 72 is outside the
    [try]: it leaves the function, and no request is sent. *)
Definition _make_request `{Runtime} (self : FHIRClient) (method endpoint : string)
    (kwargs : list (string * json)) (sent : list request)
  : result (gmap string json) * list request :=
  match build_request self method endpoint kwargs with
  | Ok req =>
      (handle_exceptions (request_body endpoint (client_request sent req)),
       sent ++ [req])
  | Raise e => (Raise e, sent)
  end.

(** ** [assess_data_quality] *)

(** One value of [assessment["resource_assessments"]]; [None] is a key
    the dictionary does not have. *)
Record ResourceAssessment : Type := mkResourceAssessment {
  accessible : bool;
  total_available : option json;
  found_issues : option (list Issue);
  error : option string;
  data_quality_score : Z
}.

Record Assessment : Type := mkAssessment {
  server_url : string;
  timestamp : string;
  resource_assessments : list (string * ResourceAssessment)
}.

(** [d[key] = value] on a dict that keeps insertion order. *)
Fixpoint dict_set {A : Type} (d : list (string * A)) (key : string) (value : A)
  : list (string * A) :=
  match d with
  | [] => [(key, value)]
  | (k, v) :: rest =>
      if bool_decide (k = key) then (k, value) :: rest
      else (k, v) :: dict_set rest key value
  end.

(** Line 214. [not resource_type] holds for [None] and for the empty
    string. *)
Definition test_resources (resource_type : option string) : list string :=
  match resource_type with
  | None => ["Patient"; "Observation"; "Condition"; "MedicationRequest"]
  | Some r =>
      if bool_decide (r = "")
      then ["Patient"; "Observation"; "Condition"; "MedicationRequest"]
      else [r]
  end.

(** Lines 219-227: the body of the [try] of one iteration, after the
    request. *)
Definition assess_document (document : result (gmap string json))
  : result ResourceAssessment :=
  result ← document;
  validation ← _validate_fhir_response result;
  Ok (mkResourceAssessment
        (is_valid validation)
        (Some (default (JNum 0) (total_resources (data_quality validation))))
        (Some (issues validation))
        None
        (_calculate_quality_score validation)).

(** Lines 228-233: the [except Exception] of one iteration. *)
Definition assess_guarded `{Runtime} (attempt : result ResourceAssessment)
  : result ResourceAssessment :=
  match attempt with
  | Ok record => Ok record
  | Raise e => Ok (mkResourceAssessment false None None (Some (exn_str e)) 0)
  end.

(** The keyword arguments of the sample search of line 219. *)
Definition sample_search : list (string * json) :=
  [("params", JObj {[ "_count" := JNum 10 ]})].

(** One iteration of the loop of lines 216-233: the record stored for
    [resource], and the requests sent so far. *)
Definition assess_resource `{Runtime} (self : FHIRClient) (resource : string)
    (sent : list request) : result ResourceAssessment * list request :=
  let '(document, sent') := _make_request self "GET" resource sample_search sent in
  (assess_guarded (assess_document document), sent').

(** The loop of lines 216-233 over the remaining categories. *)
Fixpoint assess_loop `{Runtime} (self : FHIRClient) (resources : list string)
    (records : list (string * ResourceAssessment)) (sent : list request)
  : result (list (string * ResourceAssessment)) * list request :=
  match resources with
  | [] => (Ok records, sent)
  | resource :: rest =>
      match assess_resource self resource sent with
      | (Ok record, sent') =>
          assess_loop self rest (dict_set records resource record) sent'
      | (Raise e, sent') => (Raise e, sent')
      end
  end.

Definition assess_data_quality `{Runtime} (self : FHIRClient)
    (resource_type : option string) (sent : list request)
  : result Assessment * list request :=
  let '(records, sent') :=
    assess_loop self (test_resources resource_type) [] sent in
  (records ← records;
   Ok (mkAssessment (base_url self) (now_isoformat sent) records),
   sent').

(** ** The average reported by [handle_call_tool] *)

(** Lines 746-758 of the loop over [resource_assessments]: what one
    record adds to [(overall_score, resource_count)]. *)
Definition add_record (totals : Z * nat) (item : string * ResourceAssessment)
  : Z * nat :=
  let '(overall_score, resource_count) := totals in
  if accessible item.2
  then (overall_score + data_quality_score item.2, S resource_count)
  else totals.

(** Lines 739-766: the overall average, when its line is appended to the
    reply.  The quotient is the exact rational that [overall_score /
    resource_count] approximates. *)
Definition overall_average (assessment : Assessment) : option Q :=
  let '(overall_score, resource_count) :=
    fold_left add_record (resource_assessments assessment) (0, 0%nat) in
  if bool_decide (0 < resource_count)%nat
  then Some (inject_Z overall_score / inject_Z (Z.of_nat resource_count))%Q
  else None.

(** ** [FHIRClient.__init__] *)

(** [s.rstrip('/')]: [s] without the ['/'] characters at its end. *)
Fixpoint rstrip_slash (s : string) : string :=
  match s with
  | EmptyString => EmptyString
  | String a s' =>
      match rstrip_slash s' with
      | EmptyString => if bool_decide (a = "/"%char) then EmptyString
                       else String a EmptyString
      | rest => String a rest
      end
  end.

(** Lines 48-51: the client keeps the base URL without its trailing
    slashes, and the token as it is given. *)
Definition __init__ (base_url : string) (auth_token : option string) : FHIRClient :=
  mkFHIRClient (rstrip_slash base_url) auth_token.

(** ** The search operations of the client *)

(** [search_conditions], line 131, called with the keyword arguments
    [params]. *)
Definition search_conditions `{Runtime} (self : FHIRClient)
    (params : gmap string json) (sent : list request)
  : result (gmap string json) * list request :=
  _make_request self "GET" "Condition" [("params", JObj params)] sent.

(** ** [handle_call_tool], tool "find_patients_with_conditions" *)

(** Body of the loop of lines 710-716 on the set [patient_ids]. *)
Definition collect_patient_id (entry : json) (patient_ids : gset string)
  : result (gset string) :=
  resource ← py_get entry "resource" (JObj ∅);
  has_subject ← py_contains "subject" resource;
  if (has_subject : bool) then
    subject ← py_getitem resource "subject";
    has_reference ← py_contains "reference" subject;
    if (has_reference : bool) then
      patient_ref ← py_getitem subject "reference";
      has_slash ← py_contains "/" patient_ref;
      if (has_slash : bool) then
        patient_id ← py_split_last patient_ref;
        Ok (patient_ids ∪ {[ patient_id ]})
      else Ok patient_ids
    else Ok patient_ids
  else Ok patient_ids.

Fixpoint collect_patient_ids (entries : list json) (patient_ids : gset string)
  : result (gset string) :=
  match entries with
  | [] => Ok patient_ids
  | entry :: rest =>
      patient_ids' ← collect_patient_id entry patient_ids;
      collect_patient_ids rest patient_ids'
  end.

(** [a <= b] on strings, as Python compares them: character by
    character, a proper prefix first. *)
Fixpoint str_le (a b : string) : bool :=
  match a, b with
  | EmptyString, _ => true
  | String _ _, EmptyString => false
  | String x a', String y b' =>
      if (nat_of_ascii x <? nat_of_ascii y)%nat then true
      else if (nat_of_ascii x =? nat_of_ascii y)%nat then str_le a' b'
      else false
  end.

Definition string_le (a b : string) : Prop := str_le a b = true.

Global Instance string_le_dec : RelDecision string_le.
Proof. intros a b. unfold string_le. apply _. Defined.

(** [sorted(patient_ids)] for a set of strings. *)
Definition sorted_ids (patient_ids : gset string) : list string :=
  merge_sort string_le (elements patient_ids).

Definition newline : string := String (ascii_of_nat 10) EmptyString.

(** Lines 718-726: the lines of the reply. *)
Definition patient_id_lines (patient_ids : gset string) : list string :=
  let response_lines :=
    ["Found " +:+ str_of_nat (size patient_ids)
     +:+ " unique patients with conditions"] in
  if negb (bool_decide (patient_ids = ∅)) then
    let response_lines := response_lines ++ [newline +:+ "Patient IDs:"] in
    let response_lines :=
      response_lines ++ ((fun pid => "- " +:+ pid) <$> take 20 (sorted_ids patient_ids)) in
    if bool_decide (20 < size patient_ids)%nat then
      response_lines
      ++ ["... and " +:+ str_of_nat (size patient_ids - 20) +:+ " more"]
    else response_lines
  else
    response_lines ++ ["No patient IDs found in condition records"].

(** The lines of the reply, joined by newlines (line 728). *)
Definition join_lines (response_lines : list string) : string :=
  String.concat newline response_lines.

(** Lines 705-728: the branch of the tool, from the call of the client to
    the text of the reply.  A key "self" among the arguments collides with
    the receiver of the bound method and makes the call raise. *)
Definition find_patients_with_conditions `{Runtime} (client : FHIRClient)
    (arguments : gmap string json) (sent : list request)
  : result string * list request :=
  if bool_decide (is_Some (arguments !! "self")) then
    (Raise (TypeError
              "FHIRClient.search_conditions() got multiple values for argument 'self'"),
     sent)
  else
    let '(document, sent') := search_conditions client arguments sent in
    (result ← document;
     entries ← py_iter (dict_get result "entry" (JArr []));
     patient_ids ← collect_patient_ids entries ∅;
     Ok (join_lines (patient_id_lines patient_ids)),
     sent').

(** Lines 407-410 and 782-785 around that branch: the reply of
    [handle_call_tool] for the tool "find_patients_with_conditions", with
    the client of the module ([None] before [main] has set it). *)
Definition call_find_patients_with_conditions `{Runtime}
    (fhir_client : option FHIRClient) (arguments : gmap string json)
    (sent : list request) : string * list request :=
  match fhir_client with
  | None => ("FHIR client not initialized", sent)
  | Some client =>
      match find_patients_with_conditions client arguments sent with
      | (Ok text, sent') => (text, sent')
      | (Raise e, sent') =>
          ("Error calling tool find_patients_with_conditions: " +:+ exn_str e,
           sent')
      end
  end.

(** ** What the statements below speak about *)

(** The number of issues whose severity is [sev]. *)
Definition count_severity (sev : string) (l : list Issue) : nat :=
  length (filter (fun issue => py_eq (severity issue) (JStr sev) = true) l).

(** The sum of the deductions of a valid result: 30 per error, 10 per
    warning, 20 when orphaned references were counted, 50 when the total
    is zero (a key that is absent reads as 0). *)
Definition deductions (validation : ValidationResult) : Z :=
  30 * Z.of_nat (count_severity "error" (issues validation))
  + 10 * Z.of_nat (count_severity "warning" (issues validation))
  + (if bool_decide
          (0 < default 0 (orphaned_patient_refs (data_quality validation)))%nat
     then 20 else 0)
  + (if py_eq (default (JNum 0) (total_resources (data_quality validation)))
              (JNum 0)
     then 50 else 0).

(** *** Shapes of documents *)

(** An issue of an OperationOutcome that the copy of lines 159-163 can
    read: a JSON object whose [details], when present, is a JSON object. *)
Definition well_formed_issue (issue : json) : bool :=
  match issue with
  | JObj fields =>
      match fields !! "details" with
      | None | Some (JObj _) => true
      | Some _ => false
      end
  | _ => false
  end.

(** The copy of an issue: its severity, code and details text, "unknown"
    for a missing severity or code, "No details" for a missing text. *)
Definition copied_issue (issue : json) : Issue :=
  match issue with
  | JObj fields =>
      mkIssue (default (JStr "unknown") (fields !! "severity"))
              (default (JStr "unknown") (fields !! "code"))
              (match fields !! "details" with
               | Some (JObj d) => default (JStr "No details") (d !! "text")
               | _ => JStr "No details"
               end)
  | _ => mkIssue (JStr "unknown") (JStr "unknown") (JStr "No details")
  end.

(** The list held by a field that is absent or a JSON array. *)
Definition list_field (response : gmap string json) (key : string) : list json :=
  match response !! key with
  | Some (JArr items) => items
  | _ => []
  end.

(** A field that is absent, or a JSON array whose items all satisfy [P]. *)
Definition list_field_of (P : json → bool) (field : option json) : bool :=
  match field with
  | None => true
  | Some (JArr items) => forallb P items
  | Some _ => false
  end.

Definition well_formed_outcome (response : gmap string json) : bool :=
  list_field_of well_formed_issue (response !! "issue").

Definition hashable (x : json) : bool :=
  match x with
  | JArr _ | JObj _ => false
  | _ => true
  end.

(** The resource an entry wraps; the empty object when it wraps none. *)
Definition resource_of (entry : json) : gmap string json :=
  match entry with
  | JObj fields =>
      match fields !! "resource" with
      | Some (JObj resource) => resource
      | _ => ∅
      end
  | _ => ∅
  end.

Definition is_patient (resource : gmap string json) : bool :=
  py_eq (dict_get resource "resourceType" JNull) (JStr "Patient").

(** [subject.reference] of a resource, when it is there and a string. *)
Definition reference_of (resource : gmap string json) : option string :=
  match resource !! "subject" with
  | Some (JObj subject) =>
      match subject !! "reference" with
      | Some (JStr ref) => Some ref
      | _ => None
      end
  | _ => None
  end.

Definition well_formed_subject (resource : gmap string json) : bool :=
  match resource !! "subject" with
  | None => true
  | Some (JObj subject) =>
      match subject !! "reference" with
      | None | Some (JStr _) => true
      | Some _ => false
      end
  | Some _ => false
  end.

Definition well_formed_resource (resource : gmap string json) : bool :=
  hashable (dict_get resource "resourceType" JNull)
  && (if is_patient resource
      then hashable (dict_get resource "id" JNull)
      else well_formed_subject resource).

Definition well_formed_entry (entry : json) : bool :=
  match entry with
  | JObj fields =>
      match fields !! "resource" with
      | None => true
      | Some (JObj resource) => well_formed_resource resource
      | Some _ => false
      end
  | _ => false
  end.

Definition well_formed_link (link : json) : bool :=
  match link with
  | JObj _ => true
  | _ => false
  end.

(** A Bundle of the shape the data model describes: [entry] and [link]
    absent or arrays of objects, every resource an object with a scalar
    [resourceType], a Patient's [id] a scalar, any other resource's
    [subject] an object whose [reference] is a string. *)
Definition well_formed_bundle (response : gmap string json) : bool :=
  list_field_of well_formed_entry (response !! "entry")
  && list_field_of well_formed_link (response !! "link").

(** *** Referenced and actual patients of a Bundle *)

(** The patient id an entry refers to: for a resource that is not itself
    a Patient, what follows the last ['/'] of a [subject.reference] that
    has a ['/']. *)
Definition referenced_id (entry : json) : option pykey :=
  let resource := resource_of entry in
  if is_patient resource then None
  else
    match reference_of resource with
    | Some ref => if is_substring "/" ref then Some (KStr (last_segment ref)) else None
    | None => None
    end.

Definition key_of (x : json) : option pykey :=
  match py_hash x with
  | Ok key => Some key
  | Raise _ => None
  end.

(** The id of an entry whose resource is a Patient. *)
Definition patient_id (entry : json) : option pykey :=
  let resource := resource_of entry in
  if is_patient resource then resource !! "id" ≫= key_of else None.

(** What line 187 adds for an entry whose resource is a Patient: its
    [id], [None] when it has none. *)
Definition patient_seen (entry : json) : option pykey :=
  let resource := resource_of entry in
  if is_patient resource then key_of (dict_get resource "id" JNull) else None.

(** The set holding the key of an entry that contributes one. *)
Definition opt_set (o : option pykey) : gset pykey :=
  match o with
  | Some key => {[ key ]}
  | None => ∅
  end.

Definition referenced_ids (entries : list json) : gset pykey :=
  list_to_set (omap referenced_id entries).

Definition actual_ids (entries : list json) : gset pykey :=
  list_to_set (omap patient_id entries).

Definition patients_seen (entries : list json) : gset pykey :=
  list_to_set (omap patient_seen entries).

Definition referenced_patient_ids (response : gmap string json) : gset pykey :=
  referenced_ids (list_field response "entry").

Definition actual_patient_ids (response : gmap string json) : gset pykey :=
  actual_ids (list_field response "entry").

(** *** Classes of exceptions *)




(** The issue of an outcome document, as (severity, code, details text). *)
Definition outcome_issue (code text : string) : Issue :=
  mkIssue (JStr "error") (JStr code) (JStr text).

(** The referenced ids read as "the substring after the last ['/'] of
    the [subject.reference] of an entry", for every entry and every
    reference: without the test of line 190 ([split] returns the whole
    string when it has no ['/']) and without the [elif] of line 188. *)
Definition referenced_id_unguarded (entry : json) : option pykey :=
  match reference_of (resource_of entry) with
  | Some ref => Some (KStr (last_segment ref))
  | None => None
  end.

Definition referenced_ids_unguarded (response : gmap string json) : gset pykey :=
  list_to_set (omap referenced_id_unguarded (list_field response "entry")).

(** *** Categories of an assessment *)

(** The request the loop builds for a category, when its URL can be
    built. *)
Definition category_request `{Runtime} (self : FHIRClient) (resource : string)
  : result request :=
  build_request self "GET" resource sample_search.

(** The requests a call of the gateway adds to those sent: the request
    it built, or none when building it raised. *)
Definition sent_by (attempt : result request) : list request :=
  match attempt with
  | Ok req => [req]
  | Raise _ => []
  end.

(** The requests sent for a list of categories, in order: one for each
    category whose URL can be built. *)
Definition category_requests `{Runtime} (self : FHIRClient) (resources : list string)
  : list request :=
  resources ≫= (fun resource => sent_by (category_request self resource)).

(** The record of a category, given the document the gateway returned
    for it: the assessment of the document, or the failure record when the
    assessment raised. *)
Definition record_of `{Runtime} (document : result (gmap string json))
  : ResourceAssessment :=
  match assess_document document with
  | Ok record => record
  | Raise e => mkResourceAssessment false None None (Some (exn_str e)) 0
  end.

(** The document the gateway returns for a category after the requests
    [sent]. *)
Definition category_document `{Runtime} (self : FHIRClient) (resource : string)
    (sent : list request) : result (gmap string json) :=
  (_make_request self "GET" resource sample_search sent).1.

(** The records of the categories, each from its own request, in order. *)
Fixpoint category_records `{Runtime} (self : FHIRClient) (resources : list string)
    (sent : list request) : list (string * ResourceAssessment) :=
  match resources with
  | [] => []
  | resource :: rest =>
      (resource, record_of (category_document self resource sent))
      :: category_records self rest
           (sent ++ sent_by (category_request self resource))
  end.

(** The scores of the accessible categories of an assessment. *)
Definition accessible_scores (assessment : Assessment) : list Z :=
  (fun item => data_quality_score item.2)
    <$> filter (fun item => accessible item.2 = true)
               (resource_assessments assessment).

Definition sum_scores (scores : list Z) : Z := foldr Z.add 0 scores.

(** *** Documents, results and runtimes used as examples *)

Definition obj (fields : list (string * json)) : json := JObj (list_to_map fields).

(** A valid result with one warning and a zero total. *)
Definition one_warning_zero_total : ValidationResult :=
  mkValidationResult true
    [mkIssue (JStr "warning") (JStr "informational") (JStr "check")]
    (mkDataQuality (Some (JNum 0)) (Some 0%nat) (Some false) (Some ∅) None)
    (JStr "Bundle").

(** An OperationOutcome whose only issue has no [code] and no [details]. *)
Definition outcome_without_details : gmap string json :=
  list_to_map
    [("resourceType", JStr "OperationOutcome");
     ("issue", JArr [obj [("severity", JStr "fatal")]])].

(** An OperationOutcome whose issue gives its details as plain text. *)
Definition outcome_with_text_details : gmap string json :=
  list_to_map
    [("resourceType", JStr "OperationOutcome");
     ("issue", JArr [obj [("severity", JStr "error");
                          ("code", JStr "processing");
                          ("details", JStr "Patient not found")]])].

Definition patient_entry (id : string) : json :=
  obj [("resource", obj [("resourceType", JStr "Patient"); ("id", JStr id)])].

Definition observation_entry (reference : string) : json :=
  obj [("resource",
        obj [("resourceType", JStr "Observation");
             ("subject", obj [("reference", JStr reference)])])].

(** One Patient (id "1") and one Observation referring to "Patient/2". *)
Definition orphan_bundle : gmap string json :=
  list_to_map
    [("resourceType", JStr "Bundle");
     ("total", JNum 2);
     ("entry", JArr [patient_entry "1"; observation_entry "Patient/2"])].

(** The same entries, followed by an entry whose [resource] is null. *)
Definition orphan_bundle_null_resource : gmap string json :=
  list_to_map
    [("resourceType", JStr "Bundle");
     ("total", JNum 3);
     ("entry", JArr [patient_entry "1"; observation_entry "Patient/2";
                     obj [("resource", JNull)]])].

(** One Patient (id "1") and one Observation whose subject is a logical
    reference without a ['/']. *)
Definition uuid_reference_bundle : gmap string json :=
  list_to_map
    [("resourceType", JStr "Bundle");
     ("total", JNum 2);
     ("entry", JArr [patient_entry "1";
                     observation_entry "urn:uuid:61ebe359-bfdc-4613-8bf2"])].

(** One Patient (id "1") that carries a [subject] of its own. *)
Definition patient_with_subject_bundle : gmap string json :=
  list_to_map
    [("resourceType", JStr "Bundle");
     ("total", JNum 1);
     ("entry",
      JArr [obj [("resource",
                  obj [("resourceType", JStr "Patient"); ("id", JStr "1");
                       ("subject", obj [("reference", JStr "Patient/2")])])]])].

(** One Observation referring to "Patient/99" and no Patient. *)
Definition observation_bundle : gmap string json :=
  list_to_map
    [("resourceType", JStr "Bundle");
     ("total", JNum 1);
     ("entry", JArr [observation_entry "Patient/99"])].

(** One Patient and the Observation that refers to it. *)
Definition clean_bundle : gmap string json :=
  list_to_map
    [("resourceType", JStr "Bundle");
     ("total", JNum 2);
     ("link", JArr [obj [("relation", JStr "self")]]);
     ("entry", JArr [patient_entry "1"; observation_entry "Patient/1"])].

(** A single Patient resource. *)
Definition patient_document : gmap string json :=
  list_to_map [("resourceType", JStr "Patient"); ("id", JStr "1")].

(** [str(e)] printing the text an exception carries. *)
Definition exn_text (e : exn) : string :=
  match e with
  | TimeoutException info | HTTPError info | JSONDecodeError info
  | TypeError info | ValueError info | OtherException info => info
  | HTTPStatusError status => "Client error"
  | AttributeError type_name attr =>
      "'" +:+ type_name +:+ "' object has no attribute '" +:+ attr +:+ "'"
  | KeyError key => "'" +:+ key +:+ "'"
  end.

(** A server that answers every request with status 404. *)
Definition not_found_runtime : Runtime := {|
  exn_str := exn_text;
  urljoin := fun base endpoint => Ok (base +:+ endpoint);
  client_request := fun _ _ => Ok (mkResponse 404 (Ok (JObj ∅)));
  now_isoformat := fun _ => "2024-01-01T00:00:00"
|}.

(** A server that cannot be reached: the client raises
    [httpx.ConnectError], a subclass of [httpx.HTTPError]. *)
Definition unreachable_runtime : Runtime := {|
  exn_str := exn_text;
  urljoin := fun base endpoint => Ok (base +:+ endpoint);
  client_request := fun _ _ => Raise (HTTPError "All connection attempts failed");
  now_isoformat := fun _ => "2024-01-01T00:00:00"
|}.

(** A server that answers the first request with [orphan_bundle_null_resource]
    and every later one with [clean_bundle]. *)
Definition mixed_runtime : Runtime := {|
  exn_str := exn_text;
  urljoin := fun base endpoint => Ok (base +:+ endpoint);
  client_request := fun sent _ =>
    match sent with
    | [] => Ok (mkResponse 200 (Ok (JObj orphan_bundle_null_resource)))
    | _ => Ok (mkResponse 200 (Ok (JObj clean_bundle)))
    end;
  now_isoformat := fun _ => "2024-01-01T00:00:00"
|}.

(** [urljoin] rejecting what Python's rejects among the URLs of the
    examples: the endpoint "//[" and the base "http://[::1/" open an IPv6
    host that is never closed. *)
Definition checked_urljoin (base endpoint : string) : result string :=
  if bool_decide (endpoint = "//[") || bool_decide (base = "http://[::1/")
  then Raise (ValueError "Invalid IPv6 URL")
  else Ok (base +:+ endpoint).

(** A server that answers every request with [clean_bundle], behind a
    [urljoin] that rejects those URLs. *)
Definition checked_runtime : Runtime := {|
  exn_str := exn_text;
  urljoin := checked_urljoin;
  client_request := fun _ _ => Ok (mkResponse 200 (Ok (JObj clean_bundle)));
  now_isoformat := fun _ => "2024-01-01T00:00:00"
|}.

Definition test_client : FHIRClient :=
  mkFHIRClient "https://hapi.fhir.org/baseR4" None.

(** A client configured with a base URL that [urljoin] rejects. *)
Definition ipv6_client : FHIRClient := mkFHIRClient "http://[::1" None.

(** An assessment with two accessible categories and one that failed. *)
Definition sample_assessment : Assessment :=
  mkAssessment "https://hapi.fhir.org/baseR4" "2024-01-01T00:00:00"
    [("Patient", mkResourceAssessment true (Some (JNum 5)) (Some []) None 100);
     ("Observation",
      mkResourceAssessment false None None (Some "Request timed out") 0);
     ("Condition", mkResourceAssessment true (Some (JNum 0)) (Some []) None 50)].

(** *** The quality data of a Bundle *)

(** The key of the [resourceType] of the resource an entry carries, for
    an entry that has a [resource] field. *)
Definition entry_type_key (entry : json) : option pykey :=
  match entry with
  | JObj fields =>
      match fields !! "resource" with
      | Some (JObj resource) => key_of (dict_get resource "resourceType" JNull)
      | _ => None
      end
  | _ => None
  end.

(** A link whose [relation] is "next". *)
Definition link_is_next (link : json) : bool :=
  match link with
  | JObj fields => py_eq (dict_get fields "relation" JNull) (JStr "next")
  | _ => false
  end.

(** A string that has a ['/']. *)
Definition contains_slash (s : string) : bool := is_substring "/" s.

(** The result of validating a Bundle, computed from its fields: the
    counts of its entries, the relations of its links, the types of its
    resources, and the referenced ids that no Patient entry has. *)
Definition expected_bundle_result (response : gmap string json) : ValidationResult :=
  let entries := list_field response "entry" in
  let orphaned := referenced_ids entries ∖ patients_seen entries in
  let detected :=
    set_truthy (referenced_ids entries) && set_truthy (patients_seen entries)
    && set_truthy orphaned in
  mkValidationResult true
    (if detected then [orphaned_issue (size orphaned)] else [])
    (mkDataQuality
       (Some (dict_get response "total" (JNum 0)))
       (Some (length entries))
       (Some (existsb link_is_next (list_field response "link")))
       (Some (list_to_set (omap entry_type_key entries)))
       (if detected then Some (size orphaned) else None))
    (JStr "Bundle").

(** The codes of the outcome documents the gateway builds. *)
Definition outcome_codes : list string :=
  ["not-found"; "security"; "forbidden"; "invalid"; "timeout"; "exception"].

(** The record of a category whose request failed with the outcome
    (error, code, text). *)
Definition failed_request_record (code text : string) : ResourceAssessment :=
  mkResourceAssessment false (Some (JNum 0)) (Some [outcome_issue code text])
    None 0.

(** The patient id an entry contributes to the listing of the tool
    "find_patients_with_conditions": what follows the last ['/'] of its
    [subject.reference], whatever the type of its resource. *)
Definition subject_id (entry : json) : option string :=
  match reference_of (resource_of entry) with
  | Some ref => if is_substring "/" ref then Some (last_segment ref) else None
  | None => None
  end.

(** A string of [n] slashes. *)
Fixpoint slashes (n : nat) : string :=
  match n with
  | O => EmptyString
  | S n' => String "/"%char (slashes n')
  end.

(** A string whose last character is ['/']. *)
Fixpoint ends_with_slash (s : string) : bool :=
  match s with
  | EmptyString => false
  | String a EmptyString => bool_decide (a = "/"%char)
  | String _ s' => ends_with_slash s'
  end.



(** The set holding the id of an entry that contributes one. *)
Definition opt_id (o : option string) : gset string :=
  match o with
  | Some id => {[ id ]}
  | None => ∅
  end.

(** A Bundle with nothing but its discriminator. *)
Definition bare_bundle : gmap string json :=
  list_to_map [("resourceType", JStr "Bundle")].

(** * Properties *)

(** ** Python primitives on examples *)

Example last_segment_examples :
  last_segment "Patient/2" = "2"
  ∧ last_segment "http://hapi.fhir.org/baseR4/Patient/7" = "7"
  ∧ last_segment "Patient/7/_history/3" = "3"
  ∧ last_segment "urn:uuid:53fefa32" = "urn:uuid:53fefa32"
  ∧ last_segment "Patient/" = "".
Proof. repeat split; reflexivity. Qed.

Example py_contains_examples :
  py_contains "/" (JStr "Patient/2") = Ok true
  ∧ py_contains "/" (JStr "urn:uuid:53fefa32") = Ok false
  ∧ py_contains "reference" (JObj {[ "reference" := JNull ]}) = Ok true
  ∧ py_contains "reference" (JArr [JStr "display"]) = Ok false
  ∧ py_contains "reference" JNull
    = Raise (TypeError "argument of type 'NoneType' is not iterable").
Proof. repeat split; reflexivity. Qed.

Example py_eq_examples :
  py_eq (JBool false) (JNum 0) = true
  ∧ py_eq JNull (JNum 0) = false
  ∧ py_eq (JStr "0") (JNum 0) = false
  ∧ py_eq (JArr []) (JStr "Patient") = false.
Proof. repeat split; reflexivity. Qed.

(** ** Python equality against a string *)

Lemma py_eq_str (x : json) (s : string) : py_eq x (JStr s) = true ↔ x = JStr s.
Proof.
  destruct x; simpl; try (split; [discriminate | congruence]).
  rewrite bool_decide_eq_true. split; congruence.
Qed.

Lemma py_eq_str_false (x : json) (s : string) :
  py_eq x (JStr s) = false ↔ x ≠ JStr s.
Proof.
  rewrite <- py_eq_str. destruct (py_eq x (JStr s)); split; congruence.
Qed.

Lemma dict_get_lookup (d : gmap string json) (key : string) (v : json) :
  d !! key = Some v → ∀ default, dict_get d key default = v.
Proof. intros E default. unfold dict_get. by rewrite E. Qed.

Lemma dict_get_absent (d : gmap string json) (key : string) :
  d !! key = None → ∀ default, dict_get d key default = default.
Proof. intros E default. unfold dict_get. by rewrite E. Qed.

(** The discriminator [response.get('resourceType')] is the string [s]
    exactly when the key is present with that value. *)
Lemma discriminator_is (response : gmap string json) (s : string) :
  py_eq (dict_get response "resourceType" JNull) (JStr s) = true
  ↔ response !! "resourceType" = Some (JStr s).
Proof.
  rewrite py_eq_str. unfold dict_get.
  destruct (response !! "resourceType"); split; congruence.
Qed.

(** ** The score *)

Lemma deduct_issue_cases (score : Z) (issue : Issue) :
  deduct_issue score issue =
    score
    - 30 * Z.of_nat (count_severity "error" [issue])
    - 10 * Z.of_nat (count_severity "warning" [issue]).
Proof.
  unfold deduct_issue, count_severity.
  rewrite !filter_cons, !filter_nil.
  destruct (py_eq (severity issue) (JStr "error")) eqn:Eerr.
  - apply py_eq_str in Eerr.
    assert (py_eq (severity issue) (JStr "warning") = false) as Ewarn
      by (rewrite Eerr; reflexivity).
    rewrite Ewarn.
    rewrite decide_True by done. rewrite decide_False by done.
    simpl. lia.
  - rewrite decide_False by done.
    destruct (py_eq (severity issue) (JStr "warning")) eqn:Ewarn.
    + rewrite decide_True by done. simpl. lia.
    + rewrite decide_False by done. simpl. lia.
Qed.

Lemma count_severity_cons (sev : string) (issue : Issue) (l : list Issue) :
  count_severity sev (issue :: l)
  = (count_severity sev [issue] + count_severity sev l)%nat.
Proof.
  unfold count_severity. rewrite !filter_cons, filter_nil.
  destruct (decide (py_eq (severity issue) (JStr sev) = true)); reflexivity.
Qed.

(** The loop over the issues subtracts 30 per error and 10 per warning. *)
Lemma fold_deduct_issue (l : list Issue) (score : Z) :
  fold_left deduct_issue l score =
    score
    - 30 * Z.of_nat (count_severity "error" l)
    - 10 * Z.of_nat (count_severity "warning" l).
Proof.
  revert score. induction l as [|issue l IH]; intros score.
  - unfold count_severity. simpl. lia.
  - simpl fold_left. rewrite IH, deduct_issue_cases.
    rewrite (count_severity_cons "error" issue l).
    rewrite (count_severity_cons "warning" issue l). lia.
Qed.

Lemma score_of_valid (validation : ValidationResult) :
  is_valid validation = true →
  _calculate_quality_score validation = Z.max 0 (100 - deductions validation).
Proof.
  intros Hvalid. unfold _calculate_quality_score, deductions.
  rewrite Hvalid. simpl negb. cbv iota.
  rewrite fold_deduct_issue.
  destruct (bool_decide _); destruct (py_eq _ (JNum 0)); f_equal; lia.
Qed.

Lemma score_of_invalid (validation : ValidationResult) :
  is_valid validation = false → _calculate_quality_score validation = 0.
Proof. intros Hinvalid. unfold _calculate_quality_score. by rewrite Hinvalid. Qed.

(** C1. For a validation result with [is_valid] true the score is 100
    minus 30 per issue of severity "error", minus 10 per issue of severity
    "warning" (issues of any other severity deduct nothing), minus 20 when
    [orphaned_patient_refs > 0], minus 50 when [total_resources == 0], all
    deductions added up, and never below 0; in particular one warning and
    a zero total give 40. *)
Theorem quality_score_deductions (validation : ValidationResult) :
  is_valid validation = true →
  _calculate_quality_score validation = Z.max 0 (100 - deductions validation)
  ∧ 0 <= _calculate_quality_score validation
  ∧ (∀ warning,
       severity warning = JStr "warning" →
       issues validation = [warning] →
       total_resources (data_quality validation) = Some (JNum 0) →
       orphaned_patient_refs (data_quality validation) = None →
       _calculate_quality_score validation = 40).
Proof.
  intros Hvalid. rewrite (score_of_valid _ Hvalid).
  split; [reflexivity|]. split; [lia|].
  intros warning Hsev Hissues Htotal Horphaned.
  unfold deductions, count_severity.
  rewrite Hissues, Htotal, Horphaned, !filter_cons, !filter_nil, Hsev.
  reflexivity.
Qed.

(** ** Sequencing *)

Lemma bind_ok {A B : Type} (m : result A) (k : A → result B) (b : B) :
  (x ← m; k x) = Ok b ↔ ∃ a, m = Ok a ∧ k a = Ok b.
Proof.
  destruct m as [a|e]; simpl; split.
  - eauto.
  - intros (a' & [= ->] & Hk). exact Hk.
  - discriminate.
  - intros (a' & Hm & _). discriminate.
Qed.

Ltac bind_inv H x Hx :=
  apply bind_ok in H; destruct H as (x & Hx & H).

(** ** Sets of keys *)

Lemma set_truthy_true (s : gset pykey) : set_truthy s = true ↔ s ≠ ∅.
Proof.
  unfold set_truthy. rewrite negb_true_iff, bool_decide_eq_false. reflexivity.
Qed.

Lemma set_truthy_false (s : gset pykey) : set_truthy s = false ↔ s = ∅.
Proof.
  unfold set_truthy. rewrite negb_false_iff, bool_decide_eq_true. reflexivity.
Qed.

Lemma key_of_hash (x : json) (key : pykey) : py_hash x = Ok key → key_of x = Some key.
Proof. unfold key_of. by intros ->. Qed.

Lemma keys_cons (f : json → option pykey) (entry : json) (entries : list json) :
  list_to_set (C := gset pykey) (omap f (entry :: entries))
  = opt_set (f entry) ∪ list_to_set (omap f entries).
Proof.
  simpl. destruct (f entry); simpl; [reflexivity|].
  symmetry. apply (left_id_L ∅ (∪)).
Qed.

Lemma elem_of_keys (f : json → option pykey) (entries : list json) (key : pykey) :
  key ∈ list_to_set (C := gset pykey) (omap f entries)
  ↔ ∃ entry, entry ∈ entries ∧ f entry = Some key.
Proof. rewrite elem_of_list_to_set, list_elem_of_omap. reflexivity. Qed.

(** Referenced ids are strings. *)
Lemma referenced_id_is_string (entry : json) (key : pykey) :
  referenced_id entry = Some key → ∃ s, key = KStr s.
Proof.
  unfold referenced_id.
  destruct (is_patient _); [discriminate|].
  destruct (reference_of _) as [ref|]; [|discriminate].
  destruct (is_substring "/" ref); [|discriminate].
  intros [= <-]. eauto.
Qed.

(** What line 187 adds is the id of the Patient, or [None]. *)
Lemma patient_seen_cases (entry : json) (key : pykey) :
  patient_seen entry = Some key → patient_id entry = Some key ∨ key = KNone.
Proof.
  unfold patient_seen, patient_id, dict_get.
  destruct (is_patient _); [|discriminate].
  destruct (resource_of entry !! "id") as [id|]; simpl.
  - by left.
  - intros [= <-]. by right.
Qed.

Lemma patient_id_seen (entry : json) (key : pykey) :
  patient_id entry = Some key → patient_seen entry = Some key.
Proof.
  unfold patient_seen, patient_id, dict_get.
  destruct (is_patient _); [|discriminate].
  destruct (resource_of entry !! "id") as [id|]; simpl; [done | discriminate].
Qed.

Lemma actual_ids_seen (entries : list json) : actual_ids entries ⊆ patients_seen entries.
Proof.
  intros key. unfold actual_ids, patients_seen. rewrite !elem_of_keys.
  intros (entry & Hin & Hid). exists entry. split; [done|]. by apply patient_id_seen.
Qed.

(** Removing the ids line 187 collected removes the same referenced ids
    as removing the ids of the Patient entries. *)
Lemma orphaned_ids (entries : list json) :
  referenced_ids entries ∖ patients_seen entries
  = referenced_ids entries ∖ actual_ids entries.
Proof.
  apply set_eq. intros key. rewrite !elem_of_difference.
  split; intros [Href Hnot]; split; try done.
  - intros Hact. apply Hnot. by apply actual_ids_seen.
  - intros Hseen. unfold patients_seen in Hseen.
    apply elem_of_keys in Hseen as (entry & Hin & Hseen).
    apply patient_seen_cases in Hseen as [Hid | ->].
    + apply Hnot. unfold actual_ids. apply elem_of_keys. eauto.
    + unfold referenced_ids in Href.
      apply elem_of_keys in Href as (entry' & _ & Href).
      apply referenced_id_is_string in Href as [s Hs]. discriminate.
Qed.

(** ** The loop over the entries *)

(** Whenever the body of the loop completes, it has added the referenced
    id of the entry, or the id of its Patient. *)
Lemma scan_entry_inv (entry : json) (R A R' A' : gset pykey) :
  scan_entry entry (R, A) = Ok (R', A') →
  R' = R ∪ opt_set (referenced_id entry) ∧ A' = A ∪ opt_set (patient_seen entry).
Proof.
  unfold scan_entry. intros H.
  bind_inv H resource Hres. bind_inv H rtype Hrtype.
  destruct entry as [| | | | |fields]; try discriminate.
  destruct resource as [| | | | |r]; try discriminate.
  injection Hrtype as <-.
  assert (resource_of (JObj fields) = r) as Hof.
  { simpl in *. unfold dict_get in Hres.
    destruct (fields !! "resource") as [x|]; by simplify_eq. }
  unfold referenced_id, patient_seen. rewrite Hof. unfold is_patient.
  destruct (py_eq (dict_get r "resourceType" JNull) (JStr "Patient")) eqn:Hp.
  - bind_inv H pid Hid. bind_inv H key Hkey.
    injection Hid as <-. rewrite (key_of_hash _ _ Hkey).
    simplify_eq. simpl. split; [set_solver | done].
  - bind_inv H has_subject Hsub.
    injection Hsub as <-. unfold reference_of.
    destruct (r !! "subject") as [subject|] eqn:Esub.
    2:{ rewrite bool_decide_eq_false_2 in H by (by intros [? ?]).
        simplify_eq. simpl. split; set_solver. }
    rewrite bool_decide_eq_true_2 in H by eauto.
    bind_inv H subject' Hsubj.
    simpl in Hsubj. rewrite Esub in Hsubj. injection Hsubj as <-.
    bind_inv H has_reference Href.
    destruct has_reference.
    2:{ simplify_eq.
        destruct subject as [| | | | |s]; simpl in *; try discriminate.
        - split; set_solver.
        - split; set_solver.
        - injection Href as Href. apply bool_decide_eq_false in Href.
          destruct (s !! "reference") eqn:E; [exfalso; eauto|].
          simpl. split; set_solver. }
    bind_inv H ref Hgetref.
    destruct subject as [| | | | |s]; simpl in Hgetref; try discriminate.
    destruct (s !! "reference") as [ref'|] eqn:Eref; [|discriminate].
    injection Hgetref as ->.
    bind_inv H has_slash Hslash.
    destruct has_slash.
    + bind_inv H seg Hlast.
      destruct ref as [| | |str| |]; simpl in Hlast; try discriminate.
      simpl in Hslash. injection Hslash as Hslash. simplify_eq.
      rewrite Hslash. simpl. split; set_solver.
    + simplify_eq.
      destruct ref as [| | |str| |]; simpl in *; try discriminate; simplify_eq;
        try rewrite Hslash; simpl; split; set_solver.
Qed.

Lemma scan_entries_inv (entries : list json) (R A R' A' : gset pykey) :
  scan_entries entries (R, A) = Ok (R', A') →
  R' = R ∪ referenced_ids entries ∧ A' = A ∪ patients_seen entries.
Proof.
  revert R A. induction entries as [|entry entries IH]; intros R A H.
  - injection H as <- <-. unfold referenced_ids, patients_seen. simpl.
    split; set_solver.
  - simpl in H. bind_inv H sets Hentry. destruct sets as [R1 A1].
    apply scan_entry_inv in Hentry as [-> ->].
    apply IH in H as [-> ->].
    unfold referenced_ids, patients_seen. rewrite !keys_cons.
    split; set_solver.
Qed.

(** On a well-formed entry the body of the loop completes. *)
Lemma scan_entry_well_formed (entry : json) (sets : gset pykey * gset pykey) :
  well_formed_entry entry = true → ∃ sets', scan_entry entry sets = Ok sets'.
Proof.
  destruct sets as [R A]. destruct entry as [| | | | |fields]; try discriminate.
  unfold scan_entry. simpl.
  destruct (fields !! "resource") as [resource|] eqn:E.
  - rewrite (dict_get_lookup _ _ _ E).
    destruct resource as [| | | | |r]; try discriminate. simpl.
    unfold well_formed_resource, is_patient.
    intros [Hhash Hrest]%andb_true_iff.
    destruct (py_eq (dict_get r "resourceType" JNull) (JStr "Patient")).
    + destruct (dict_get r "id" JNull); try discriminate; simpl; eauto.
    + unfold well_formed_subject in Hrest.
      destruct (r !! "subject") as [[| | | | |s]|] eqn:Esub; try discriminate; simpl.
      2:{ eauto. }
      destruct (s !! "reference") as [[| | |str| |]|] eqn:Eref;
        try discriminate; simpl.
      2:{ eauto. }
      destruct (is_substring "/" str); simpl; eauto.
  - intros _. rewrite (dict_get_absent _ _ E). simpl.
    rewrite !(dict_get_absent _ _ (lookup_empty _)). simpl.
    rewrite lookup_empty. simpl. eauto.
Qed.

Lemma scan_entries_well_formed (entries : list json) (sets : gset pykey * gset pykey) :
  forallb well_formed_entry entries = true →
  ∃ sets', scan_entries entries sets = Ok sets'.
Proof.
  revert sets. induction entries as [|entry entries IH]; intros sets H.
  - simpl. eauto.
  - simpl in H. apply andb_true_iff in H as [Hentry Hrest].
    destruct (scan_entry_well_formed entry sets Hentry) as [sets1 E].
    simpl. rewrite E. simpl. apply IH, Hrest.
Qed.

Lemma collect_resource_types_well_formed (entries : list json) (seen : gset pykey) :
  forallb well_formed_entry entries = true →
  ∃ rtypes, collect_resource_types entries seen = Ok rtypes.
Proof.
  revert seen. induction entries as [|entry entries IH]; intros seen H.
  - simpl. eauto.
  - simpl in H. apply andb_true_iff in H as [Hentry Hrest].
    destruct entry as [| | | | |fields]; try discriminate.
    simpl. simpl in Hentry. unfold dict_get.
    destruct (fields !! "resource") as [[| | | | |r]|] eqn:E; try discriminate.
    2:{ rewrite bool_decide_eq_false_2 by (by intros [? ?]). apply IH, Hrest. }
    rewrite bool_decide_eq_true_2 by eauto. simpl.
    unfold well_formed_resource in Hentry.
    apply andb_true_iff in Hentry as [Hhash _].
    destruct (dict_get r "resourceType" JNull); try discriminate; simpl;
      apply IH, Hrest.
Qed.

Lemma any_relation_next_well_formed (links : list json) :
  forallb well_formed_link links = true → ∃ next, any_relation_next links = Ok next.
Proof.
  induction links as [|link links IH]; intros H.
  - simpl. eauto.
  - simpl in H. apply andb_true_iff in H as [Hlink Hrest].
    destruct link as [| | | | |fields]; try discriminate. simpl.
    destruct (py_eq _ _); eauto.
Qed.

(** ** Validation of a Bundle *)

(** A field checked by [list_field_of] reads as the array of its items. *)
Lemma list_field_of_true (P : json → bool) (response : gmap string json) (key : string) :
  list_field_of P (response !! key) = true →
  dict_get response key (JArr []) = JArr (list_field response key)
  ∧ forallb P (list_field response key) = true.
Proof.
  unfold list_field_of, dict_get, list_field.
  destruct (response !! key) as [[| | | |items|]|]; try discriminate; done.
Qed.

(** When the loop over the entries completes, the entries it ran over
    are the items of the [entry] array. *)
Lemma scanned_entries (response : gmap string json) (items : list json)
    (sets sets' : gset pykey * gset pykey) :
  py_iter (dict_get response "entry" (JArr [])) = Ok items →
  scan_entries items sets = Ok sets' →
  items = list_field response "entry".
Proof.
  unfold dict_get, list_field. destruct sets as [R A].
  destruct (response !! "entry") as [[| | |s|l|d]|]; simpl; try discriminate.
  - intros [= <-]. destruct s; [done | by simpl].
  - by intros [= <-].
  - intros [= <-]. destruct ((map_to_list d).*1); [done | by simpl].
  - by intros [= <-].
Qed.

(** What a completed validation of a Bundle has computed. *)
Lemma validate_bundle_inv (response : gmap string json) (v : ValidationResult) :
  response !! "resourceType" = Some (JStr "Bundle") →
  _validate_fhir_response response = Ok v →
  let R := referenced_patient_ids response in
  let A := patients_seen (list_field response "entry") in
  is_valid v = true
  ∧ resource_type v = JStr "Bundle"
  ∧ total_resources (data_quality v) = Some (dict_get response "total" (JNum 0))
  ∧ (if set_truthy R && set_truthy A && set_truthy (R ∖ A)
     then issues v = [orphaned_issue (size (R ∖ A))]
          ∧ orphaned_patient_refs (data_quality v) = Some (size (R ∖ A))
     else issues v = [] ∧ orphaned_patient_refs (data_quality v) = None).
Proof.
  intros Hbundle H. unfold _validate_fhir_response in H.
  rewrite !(dict_get_lookup _ _ _ Hbundle) in H. simpl in H.
  bind_inv H returned Hreturned. bind_inv H links Hlinks.
  bind_inv H next Hnext. bind_inv H items Hitems.
  bind_inv H rtypes Hrtypes. bind_inv H sets Hscan.
  destruct sets as [R A].
  pose proof (scanned_entries _ _ _ _ Hitems Hscan) as ->.
  apply scan_entries_inv in Hscan as [-> ->].
  rewrite !(left_id_L ∅ (∪)) in H. unfold referenced_patient_ids. simpl.
  destruct (set_truthy (referenced_ids _) && set_truthy (patients_seen _)); simpl.
  - destruct (set_truthy (_ ∖ _)); injection H as <-; done.
  - injection H as <-. done.
Qed.

(** The validation of a well-formed Bundle completes. *)
Lemma validate_bundle_total (response : gmap string json) :
  response !! "resourceType" = Some (JStr "Bundle") →
  well_formed_bundle response = true →
  ∃ v, _validate_fhir_response response = Ok v.
Proof.
  intros Hbundle [Hentries Hlinks]%andb_true_iff.
  apply list_field_of_true in Hentries as [Eentry Hentries].
  apply list_field_of_true in Hlinks as [Elink Hlinks].
  unfold _validate_fhir_response.
  rewrite !(dict_get_lookup _ _ _ Hbundle). simpl.
  rewrite Eentry, Elink. simpl.
  destruct (any_relation_next_well_formed _ Hlinks) as [next ->]. simpl.
  destruct (collect_resource_types_well_formed _ ∅ Hentries) as [rtypes ->]. simpl.
  destruct (scan_entries_well_formed _ (∅, ∅) Hentries) as [[R A] ->]. simpl.
  destruct (set_truthy R && set_truthy A); [destruct (set_truthy (R ∖ A))|]; eauto.
Qed.

(** ** Validation of an OperationOutcome *)

Lemma copy_issue_well_formed (issue : json) :
  well_formed_issue issue = true → copy_issue issue = Ok (copied_issue issue).
Proof.
  destruct issue as [| | | | |fields]; try discriminate.
  unfold copy_issue, copied_issue. simpl.
  destruct (fields !! "details") as [det|] eqn:E.
  - rewrite (dict_get_lookup _ _ _ E).
    destruct det as [| | | | |d]; try discriminate. intros _. simpl.
    unfold dict_get.
    destruct (fields !! "severity"), (fields !! "code"), (d !! "text"); reflexivity.
  - rewrite (dict_get_absent _ _ E). intros _. simpl.
    unfold dict_get. rewrite lookup_empty.
    destruct (fields !! "severity"), (fields !! "code"); reflexivity.
Qed.

Lemma copy_issues_well_formed (items : list json) :
  forallb well_formed_issue items = true →
  copy_issues items = Ok (copied_issue <$> items).
Proof.
  induction items as [|issue items IH]; intros H; [reflexivity|].
  simpl in H. apply andb_true_iff in H as [Hissue Hrest].
  simpl. rewrite (copy_issue_well_formed _ Hissue). simpl.
  rewrite (IH Hrest). reflexivity.
Qed.

(** C2 (as amended). For every document whose [resourceType] is
    "OperationOutcome" and whose [issue] field is absent or an array of
    objects, each with [details] absent or an object,
    [_validate_fhir_response] returns a result with [is_valid] false, whose
    issues copy the severity, the code and the details text of each issue
    ("unknown" for a missing severity or code, "No details" for a missing
    text), with an empty [data_quality]: nothing else is analysed.  The
    score of that result, and of any result with [is_valid] false, is 0. *)
Theorem outcome_is_invalid_and_scores_zero (response : gmap string json) :
  response !! "resourceType" = Some (JStr "OperationOutcome") →
  well_formed_outcome response = true →
  (∃ v, _validate_fhir_response response = Ok v
        ∧ is_valid v = false
        ∧ issues v = copied_issue <$> list_field response "issue"
        ∧ data_quality v = no_data_quality
        ∧ _calculate_quality_score v = 0)
  ∧ (∀ v, is_valid v = false → _calculate_quality_score v = 0).
Proof.
  intros Houtcome Hshape. split; [|apply score_of_invalid].
  apply list_field_of_true in Hshape as [Eissue Hissues].
  unfold _validate_fhir_response.
  rewrite !(dict_get_lookup _ _ _ Houtcome). simpl.
  rewrite Eissue. simpl.
  rewrite (copy_issues_well_formed _ Hissues). simpl.
  eexists. split; [reflexivity|]. simpl. done.
Qed.

Lemma outcome_is_invalid_and_scores_zero_witness :
  outcome_without_details !! "resourceType" = Some (JStr "OperationOutcome")
  ∧ well_formed_outcome outcome_without_details = true
  ∧ ∃ v, _validate_fhir_response outcome_without_details = Ok v
         ∧ is_valid v = false
         ∧ issues v = [mkIssue (JStr "fatal") (JStr "unknown") (JStr "No details")]
         ∧ _calculate_quality_score v = 0.
Proof.
  split; [reflexivity|]. split; [reflexivity|].
  destruct (outcome_is_invalid_and_scores_zero outcome_without_details
              eq_refl eq_refl) as [(v & Hv & Hvalid & Hissues & _ & Hscore) _].
  exists v. split; [exact Hv|]. split; [exact Hvalid|]. split; [|exact Hscore].
  rewrite Hissues. reflexivity.
Defined.

(** The claim C2 as it is stated fails on a document outside that shape:
    an OperationOutcome whose issue carries its details as a string makes
    [issue.get('details', {}).get('text', ...)] raise, and no result is
    returned. *)
Lemma outcome_with_text_details_raises :
  outcome_with_text_details !! "resourceType" = Some (JStr "OperationOutcome")
  ∧ _validate_fhir_response outcome_with_text_details
    = Raise (AttributeError "str" "get")
  ∧ ¬ ∃ v, _validate_fhir_response outcome_with_text_details = Ok v.
Proof.
  split; [reflexivity|].
  assert (_validate_fhir_response outcome_with_text_details
          = Raise (AttributeError "str" "get")) as E by (vm_compute; reflexivity).
  split; [exact E|]. intros [v Hv]. rewrite E in Hv. discriminate.
Qed.

(** C3 (as amended). For every well-formed Bundle in which the set of
    patient ids referenced through [subject.reference] (what follows the
    last ['/'] of a reference that has one, over the entries that are not
    themselves Patients) and the set of ids of the Patient entries are both
    non-empty and the first has an id the second lacks,
    [_validate_fhir_response] returns a result with exactly one issue,
    (warning, "orphaned-references", "Found <n> orphaned patient
    references"), and records <n>, the number of referenced ids that are
    not actual ones, as [orphaned_patient_refs]. *)
Theorem orphaned_references_are_reported (response : gmap string json) :
  response !! "resourceType" = Some (JStr "Bundle") →
  well_formed_bundle response = true →
  referenced_patient_ids response ≠ ∅ →
  actual_patient_ids response ≠ ∅ →
  referenced_patient_ids response ∖ actual_patient_ids response ≠ ∅ →
  ∃ v, _validate_fhir_response response = Ok v
       ∧ issues v =
           [mkIssue (JStr "warning") (JStr "orphaned-references")
              (JStr ("Found "
                     +:+ str_of_nat (size (referenced_patient_ids response
                                           ∖ actual_patient_ids response))
                     +:+ " orphaned patient references"))]
       ∧ orphaned_patient_refs (data_quality v)
         = Some (size (referenced_patient_ids response
                       ∖ actual_patient_ids response)).
Proof.
  intros Hbundle Hshape Hreferenced Hactual Horphaned.
  destruct (validate_bundle_total _ Hbundle Hshape) as [v Hv].
  exists v. split; [exact Hv|].
  destruct (validate_bundle_inv _ _ Hbundle Hv) as (_ & _ & _ & Hissue).
  unfold referenced_patient_ids, actual_patient_ids in *.
  rewrite orphaned_ids in Hissue.
  assert (patients_seen (list_field response "entry") ≠ ∅) as Hseen.
  { intros Hempty. apply Hactual. apply set_eq. intros key. split.
    - intros Hin. apply actual_ids_seen in Hin. by rewrite Hempty in Hin.
    - intros Hin. by apply not_elem_of_empty in Hin. }
  apply set_truthy_true in Hreferenced, Hseen, Horphaned.
  rewrite Hreferenced, Hseen, Horphaned in Hissue. exact Hissue.
Qed.

Lemma orphaned_references_are_reported_witness :
  ∃ v, _validate_fhir_response orphan_bundle = Ok v
       ∧ issues v =
           [mkIssue (JStr "warning") (JStr "orphaned-references")
              (JStr "Found 1 orphaned patient references")]
       ∧ orphaned_patient_refs (data_quality v) = Some 1%nat.
Proof.
  assert (referenced_patient_ids orphan_bundle = {[ KStr "2" ]}) as Hreferenced
    by (vm_compute; reflexivity).
  assert (actual_patient_ids orphan_bundle = {[ KStr "1" ]}) as Hactual
    by (vm_compute; reflexivity).
  assert (referenced_patient_ids orphan_bundle ∖ actual_patient_ids orphan_bundle
          = {[ KStr "2" ]}) as Horphaned by (vm_compute; reflexivity).
  destruct (orphaned_references_are_reported orphan_bundle eq_refl eq_refl)
    as (v & Hv & Hissues & Hcount).
  - rewrite Hreferenced. apply (non_empty_singleton_L (KStr "2")).
  - rewrite Hactual. apply (non_empty_singleton_L (KStr "1")).
  - rewrite Horphaned. apply (non_empty_singleton_L (KStr "2")).
  - exists v. split; [exact Hv|].
    rewrite Horphaned, size_singleton in Hissues, Hcount. split; assumption.
Defined.

(** The claim C3 as it is stated fails in three ways, each with a
    non-empty set of referenced ids, a non-empty set of Patient ids and a
    non-empty difference.  A reference without a ['/'] is skipped by the
    test of line 190, and a [subject] carried by a Patient is never read
    (line 188 is an [elif]): the result has no issue and no count.  And a
    Bundle outside the shape above (here an entry whose [resource] is
    null) makes [entry.get('resource', {}).get(...)] raise, so that no
    result is returned. *)
Lemma orphaned_references_not_always_reported :
  (uuid_reference_bundle !! "resourceType" = Some (JStr "Bundle")
   ∧ referenced_ids_unguarded uuid_reference_bundle
     = {[ KStr "urn:uuid:61ebe359-bfdc-4613-8bf2" ]}
   ∧ actual_patient_ids uuid_reference_bundle = {[ KStr "1" ]}
   ∧ referenced_ids_unguarded uuid_reference_bundle
     ∖ actual_patient_ids uuid_reference_bundle
     = {[ KStr "urn:uuid:61ebe359-bfdc-4613-8bf2" ]}
   ∧ ∃ v, _validate_fhir_response uuid_reference_bundle = Ok v
          ∧ issues v = []
          ∧ orphaned_patient_refs (data_quality v) = None)
  ∧ (patient_with_subject_bundle !! "resourceType" = Some (JStr "Bundle")
     ∧ referenced_ids_unguarded patient_with_subject_bundle = {[ KStr "2" ]}
     ∧ actual_patient_ids patient_with_subject_bundle = {[ KStr "1" ]}
     ∧ referenced_ids_unguarded patient_with_subject_bundle
       ∖ actual_patient_ids patient_with_subject_bundle = {[ KStr "2" ]}
     ∧ ∃ v, _validate_fhir_response patient_with_subject_bundle = Ok v
            ∧ issues v = []
            ∧ orphaned_patient_refs (data_quality v) = None)
  ∧ (orphan_bundle_null_resource !! "resourceType" = Some (JStr "Bundle")
     ∧ referenced_ids_unguarded orphan_bundle_null_resource = {[ KStr "2" ]}
     ∧ actual_patient_ids orphan_bundle_null_resource = {[ KStr "1" ]}
     ∧ referenced_ids_unguarded orphan_bundle_null_resource
       ∖ actual_patient_ids orphan_bundle_null_resource = {[ KStr "2" ]}
     ∧ _validate_fhir_response orphan_bundle_null_resource
       = Raise (AttributeError "NoneType" "get")
     ∧ ¬ ∃ v, _validate_fhir_response orphan_bundle_null_resource = Ok v).
Proof.
  split; [|split].
  - split; [reflexivity|]. do 3 (split; [vm_compute; reflexivity|]).
    destruct (_validate_fhir_response uuid_reference_bundle) as [v|e] eqn:Hv;
      vm_compute in Hv; [|discriminate].
    injection Hv as <-. eexists. split; [reflexivity|]. by split.
  - split; [reflexivity|]. do 3 (split; [vm_compute; reflexivity|]).
    destruct (_validate_fhir_response patient_with_subject_bundle)
      as [v|e] eqn:Hv; vm_compute in Hv; [|discriminate].
    injection Hv as <-. eexists. split; [reflexivity|]. by split.
  - split; [reflexivity|]. do 3 (split; [vm_compute; reflexivity|]).
    assert (_validate_fhir_response orphan_bundle_null_resource
            = Raise (AttributeError "NoneType" "get")) as E
      by (vm_compute; reflexivity).
    split; [exact E|]. intros [v Hv]. rewrite E in Hv. discriminate.
Qed.

(** No Patient among the entries leaves the set of line 187 empty. *)
Lemma patients_seen_none (entries : list json) :
  (∀ entry, entry ∈ entries → is_patient (resource_of entry) = false) →
  patients_seen entries = ∅.
Proof.
  intros Hnone. apply set_eq. intros key. split.
  - unfold patients_seen. rewrite elem_of_keys.
    intros (entry & Hin & Hseen). unfold patient_seen in Hseen.
    rewrite (Hnone _ Hin) in Hseen. discriminate.
  - intros Hin. by apply not_elem_of_empty in Hin.
Qed.

Lemma patients_seen_some (entries : list json) :
  patients_seen entries ≠ ∅ →
  ∃ entry, entry ∈ entries ∧ is_patient (resource_of entry) = true.
Proof.
  intros Hseen. apply set_choose_L in Hseen as [key Hkey].
  unfold patients_seen in Hkey. apply elem_of_keys in Hkey as (entry & Hin & Hseen).
  exists entry. split; [exact Hin|].
  unfold patient_seen in Hseen. destruct (is_patient _); [reflexivity | discriminate].
Qed.

(** C4. Orphaned-reference detection acts only when some entry refers to
    a patient and some entry is a Patient: whenever the validation of a
    Bundle records a count or appends an issue, both are the case; and for
    every Bundle without an entry whose [resourceType] is "Patient"
    (whatever its entries refer to), the result records no
    [orphaned_patient_refs] and has no issue.  The validation of such a
    Bundle does return a result when the Bundle is well formed. *)
Theorem detection_needs_patient_entries (response : gmap string json) :
  response !! "resourceType" = Some (JStr "Bundle") →
  (∀ v, _validate_fhir_response response = Ok v →
        orphaned_patient_refs (data_quality v) ≠ None ∨ issues v ≠ [] →
        referenced_patient_ids response ≠ ∅
        ∧ ∃ entry, entry ∈ list_field response "entry"
                   ∧ is_patient (resource_of entry) = true)
  ∧ ((∀ entry, entry ∈ list_field response "entry" →
               is_patient (resource_of entry) = false) →
     (∀ v, _validate_fhir_response response = Ok v →
           orphaned_patient_refs (data_quality v) = None ∧ issues v = [])
     ∧ (well_formed_bundle response = true →
        ∃ v, _validate_fhir_response response = Ok v)).
Proof.
  intros Hbundle. split.
  - intros v Hv Hdetected.
    destruct (validate_bundle_inv _ _ Hbundle Hv) as (_ & _ & _ & Hissue).
    destruct (set_truthy (referenced_patient_ids response)) eqn:Hreferenced;
      [destruct (set_truthy (patients_seen (list_field response "entry")))
         eqn:Hseen|]; simpl in Hissue.
    + apply set_truthy_true in Hreferenced, Hseen.
      split; [exact Hreferenced|]. by apply patients_seen_some.
    + destruct Hissue as [Hissues Hcount]. destruct Hdetected; congruence.
    + destruct Hissue as [Hissues Hcount]. destruct Hdetected; congruence.
  - intros Hnone. split.
    + intros v Hv.
      destruct (validate_bundle_inv _ _ Hbundle Hv) as (_ & _ & _ & Hissue).
      rewrite (patients_seen_none _ Hnone) in Hissue.
      assert (set_truthy ∅ = false) as Hempty by (by apply set_truthy_false).
      rewrite Hempty, andb_false_r in Hissue. simpl in Hissue.
      destruct Hissue. by split.
    + intros Hshape. by apply validate_bundle_total.
Qed.

Lemma detection_needs_patient_entries_witness :
  referenced_patient_ids observation_bundle = {[ KStr "99" ]}
  ∧ ∃ v, _validate_fhir_response observation_bundle = Ok v
         ∧ orphaned_patient_refs (data_quality v) = None
         ∧ issues v = [].
Proof.
  split; [vm_compute; reflexivity|].
  destruct (detection_needs_patient_entries observation_bundle eq_refl)
    as [_ Hnone].
  destruct Hnone as [Hresult Hreturns].
  - intros entry Hin.
    assert (list_field observation_bundle "entry"
            = [observation_entry "Patient/99"]) as E by reflexivity.
    rewrite E in Hin. apply list_elem_of_singleton in Hin as ->.
    vm_compute. reflexivity.
  - destruct (Hreturns eq_refl) as [v Hv].
    exists v. split; [exact Hv|]. exact (Hresult v Hv).
Defined.

(** C5. For every Bundle whose validation produced no issue, whose
    [total] is positive and for which no orphaned references were recorded,
    the score of the validation result is 100. *)
Theorem clean_bundle_scores_100 (response : gmap string json)
    (v : ValidationResult) (total : Z) :
  response !! "resourceType" = Some (JStr "Bundle") →
  _validate_fhir_response response = Ok v →
  issues v = [] →
  response !! "total" = Some (JNum total) →
  0 < total →
  orphaned_patient_refs (data_quality v) = None →
  _calculate_quality_score v = 100.
Proof.
  intros Hbundle Hv Hissues Htotal Hpositive Hnone.
  destruct (validate_bundle_inv _ _ Hbundle Hv) as (Hvalid & _ & Hquality & _).
  rewrite (score_of_valid _ Hvalid). unfold deductions, count_severity.
  rewrite Hissues, Hnone, Hquality, (dict_get_lookup _ _ _ Htotal). simpl.
  destruct (Z.eqb_spec total 0) as [->|_]; [lia | reflexivity].
Qed.

Lemma clean_bundle_scores_100_witness :
  ∃ v, _validate_fhir_response clean_bundle = Ok v
       ∧ issues v = []
       ∧ _calculate_quality_score v = 100.
Proof.
  destruct (_validate_fhir_response clean_bundle) as [v|e] eqn:Hv;
    [|vm_compute in Hv; discriminate].
  assert (issues v = [] ∧ orphaned_patient_refs (data_quality v) = None)
    as [Hissues Hnone].
  { vm_compute in Hv. injection Hv as <-. split; reflexivity. }
  exists v. split; [reflexivity|]. split; [exact Hissues|].
  apply (clean_bundle_scores_100 clean_bundle v 2 eq_refl Hv Hissues eq_refl);
    [lia | exact Hnone].
Defined.

(** C10. For every document whose [resourceType] is neither
    "OperationOutcome" nor "Bundle", [_validate_fhir_response] returns a
    result with [is_valid] true, no issue and an empty [data_quality], and
    the score of that result is 50: an absent [total_resources] reads as 0
    and costs the 50 points of an empty result set. *)
Theorem other_document_scores_50 (response : gmap string json) :
  response !! "resourceType" ≠ Some (JStr "OperationOutcome") →
  response !! "resourceType" ≠ Some (JStr "Bundle") →
  ∃ v, _validate_fhir_response response = Ok v
       ∧ is_valid v = true
       ∧ issues v = []
       ∧ data_quality v = no_data_quality
       ∧ default (JNum 0) (total_resources (data_quality v)) = JNum 0
       ∧ _calculate_quality_score v = 50.
Proof.
  intros Houtcome Hbundle.
  unfold _validate_fhir_response.
  destruct (py_eq _ (JStr "OperationOutcome")) eqn:E1.
  { apply discriminator_is in E1. contradiction. }
  destruct (py_eq _ (JStr "Bundle")) eqn:E2.
  { apply discriminator_is in E2. contradiction. }
  eexists. split; [reflexivity|]. simpl. done.
Qed.

Lemma other_document_scores_50_witness :
  ∃ v, _validate_fhir_response patient_document = Ok v
       ∧ is_valid v = true
       ∧ data_quality v = no_data_quality
       ∧ _calculate_quality_score v = 50.
Proof.
  destruct (other_document_scores_50 patient_document)
    as (v & Hv & Hvalid & _ & Hquality & _ & Hscore).
  - vm_compute. discriminate.
  - vm_compute. discriminate.
  - exists v. repeat split; assumption.
Defined.

Lemma quality_score_deductions_witness :
  is_valid one_warning_zero_total = true
  ∧ deductions one_warning_zero_total = 60
  ∧ _calculate_quality_score one_warning_zero_total = 40.
Proof.
  split; [reflexivity|]. split; [reflexivity|].
  destruct (quality_score_deductions one_warning_zero_total eq_refl)
    as (_ & _ & Hexample).
  exact (Hexample (mkIssue (JStr "warning") (JStr "informational") (JStr "check"))
           eq_refl eq_refl eq_refl eq_refl).
Defined.

(** ** The gateway *)

(** An outcome document of the gateway carries one issue, the triple
    (error, code, text), and validates as an invalid result. *)
Lemma validate_operation_outcome (code text : string) :
  _validate_fhir_response (operation_outcome code text)
  = Ok (mkValidationResult false [outcome_issue code text] no_data_quality
          (JStr "OperationOutcome")).
Proof. vm_compute. reflexivity. Qed.


Section Gateway.
Context `{Runtime}.
Variable self : FHIRClient.



(** What [_make_request] does with the outcome of line 72. *)
Lemma make_request_built (method endpoint : string)
    (kwargs : list (string * json)) (sent : list request) (url : string) :
  urljoin (base_url self +:+ "/") endpoint = Ok url →
  let req := mkRequest method url (_get_headers self) kwargs in
  build_request self method endpoint kwargs = Ok req
  ∧ _make_request self method endpoint kwargs sent
    = (handle_exceptions (request_body endpoint (client_request sent req)),
       sent ++ [req]).
Proof.
  intros Hurl. unfold _make_request, build_request. by rewrite Hurl.
Qed.

Lemma make_request_not_built (method endpoint : string)
    (kwargs : list (string * json)) (sent : list request) (e : exn) :
  urljoin (base_url self +:+ "/") endpoint = Raise e →
  build_request self method endpoint kwargs = Raise e
  ∧ _make_request self method endpoint kwargs sent = (Raise e, sent).
Proof.
  intros Hurl. unfold _make_request, build_request. by rewrite Hurl.
Qed.


Lemma build_request_raise_inv (method endpoint : string)
    (kwargs : list (string * json)) (e : exn) :
  build_request self method endpoint kwargs = Raise e →
  urljoin (base_url self +:+ "/") endpoint = Raise e.
Proof.
  unfold build_request.
  destruct (urljoin _ _) as [url|e']; simpl; [discriminate|]. by intros [= <-].
Qed.


End Gateway.



(** The claim C6 as it is stated also says that [_make_request] never
    throws: the endpoint "//[" (a [resource_type] a caller of
    [assess_data_quality] can pass) makes [urljoin] raise on line 72,
    before the [try], and the exception leaves [_make_request] with no
    request sent. *)
Example invalid_url_escapes_the_gateway :
  @urljoin checked_runtime "https://hapi.fhir.org/baseR4/" "//["
  = Raise (ValueError "Invalid IPv6 URL")
  ∧ @_make_request checked_runtime test_client "GET" "//[" sample_search []
    = (Raise (ValueError "Invalid IPv6 URL"), []).
Proof. split; reflexivity. Qed.

(** ** The assessment loop *)

Lemma dict_set_fresh {A : Type} (d : list (string * A)) (key : string) (value : A) :
  key ∉ d.*1 → dict_set d key value = d ++ [(key, value)].
Proof.
  induction d as [|[k v] d IH]; intros Hfresh; [reflexivity|].
  simpl in *. apply not_elem_of_cons in Hfresh as [Hne Hfresh].
  rewrite bool_decide_eq_false_2 by congruence. by rewrite IH.
Qed.

Lemma test_resources_NoDup (resource_type : option string) :
  NoDup (test_resources resource_type).
Proof.
  assert (NoDup ["Patient"; "Observation"; "Condition"; "MedicationRequest"])
    as Hdefault by (refine (bool_decide_unpack _ _); vm_compute; exact I).
  unfold test_resources. destruct resource_type as [r|]; [|exact Hdefault].
  destruct (bool_decide (r = "")); [exact Hdefault | apply NoDup_singleton].
Qed.

(** The validation of an OperationOutcome never yields a valid result. *)
Lemma validate_outcome_inv (response : gmap string json) (v : ValidationResult) :
  response !! "resourceType" = Some (JStr "OperationOutcome") →
  _validate_fhir_response response = Ok v → is_valid v = false.
Proof.
  intros Houtcome Hv. unfold _validate_fhir_response in Hv.
  rewrite !(dict_get_lookup _ _ _ Houtcome) in Hv. simpl in Hv.
  bind_inv Hv items Hitems. bind_inv Hv copied Hcopied.
  by injection Hv as <-.
Qed.

Section Assessment.
Context `{Runtime}.
Variable self : FHIRClient.

(** One iteration stores a record, also when the gateway call raises,
    and sends the request of the category when its URL could be built. *)
Lemma assess_resource_spec (resource : string) (sent : list request) :
  assess_resource self resource sent
  = (Ok (record_of (category_document self resource sent)),
     sent ++ sent_by (category_request self resource)).
Proof.
  unfold assess_resource, record_of, category_document, category_request,
    assess_guarded, _make_request.
  destruct (build_request self "GET" resource sample_search) as [req|e]; simpl.
  - by destruct (assess_document _).
  - by rewrite app_nil_r.
Qed.

Lemma category_requests_cons (resource : string) (rest : list string) :
  category_requests self (resource :: rest)
  = sent_by (category_request self resource) ++ category_requests self rest.
Proof. reflexivity. Qed.

Lemma category_records_keys (resources : list string) (sent : list request) :
  (category_records self resources sent).*1 = resources.
Proof.
  revert sent. induction resources as [|resource rest IH]; intros sent;
    [reflexivity|]. simpl. by rewrite IH.
Qed.

(** The record at position [i] comes from the gateway call for that
    category, made after the requests of the [i] categories before it. *)
Lemma category_records_lookup (resources : list string) (sent : list request)
    (i : nat) (resource : string) :
  resources !! i = Some resource →
  category_records self resources sent !! i
  = Some (resource,
          record_of (category_document self resource
                       (sent ++ category_requests self (take i resources)))).
Proof.
  revert sent i. induction resources as [|first rest IH]; intros sent i Hi;
    [discriminate|].
  destruct i as [|i].
  - simpl in *. injection Hi as ->. by rewrite app_nil_r.
  - simpl in Hi. change (take (S i) (first :: rest)) with (first :: take i rest).
    rewrite category_requests_cons, app_assoc. simpl. by apply IH.
Qed.

(** The loop stores one record per category, in the order of the list,
    it sends the requests of the categories whose URL could be built, and
    it does not raise. *)
Lemma assess_loop_spec (resources : list string)
    (records : list (string * ResourceAssessment)) (sent : list request) :
  NoDup resources →
  (∀ resource, resource ∈ resources → resource ∉ records.*1) →
  assess_loop self resources records sent
  = (Ok (records ++ category_records self resources sent),
     sent ++ category_requests self resources).
Proof.
  revert records sent.
  induction resources as [|resource rest IH]; intros records sent Hnodup Hfresh.
  - simpl. by rewrite !app_nil_r.
  - apply NoDup_cons in Hnodup as [Hnotin Hnodup].
    change (assess_loop self (resource :: rest) records sent)
      with (match assess_resource self resource sent with
            | (Ok record, sent') =>
                assess_loop self rest (dict_set records resource record) sent'
            | (Raise e, sent') => (Raise e, sent')
            end).
    rewrite assess_resource_spec.
    rewrite dict_set_fresh by (apply Hfresh; left).
    rewrite IH; [|exact Hnodup|].
    + rewrite category_requests_cons. simpl. by rewrite <- !app_assoc.
    + intros r Hr. rewrite fmap_app. simpl.
      rewrite elem_of_app, list_elem_of_singleton.
      intros [Hin | ->]; [|done].
      revert Hin. apply Hfresh. by right.
Qed.

Lemma assess_data_quality_spec (resource_type : option string)
    (sent : list request) :
  assess_data_quality self resource_type sent
  = (Ok (mkAssessment (base_url self) (now_isoformat sent)
           (category_records self (test_resources resource_type) sent)),
     sent ++ category_requests self (test_resources resource_type)).
Proof.
  unfold assess_data_quality.
  rewrite assess_loop_spec; [reflexivity | apply test_resources_NoDup |].
  intros resource _. simpl. apply not_elem_of_nil.
Qed.

(** The record of a category whose document is an OperationOutcome. *)
Lemma record_of_outcome (document : result (gmap string json))
    (d : gmap string json) :
  document = Ok d →
  d !! "resourceType" = Some (JStr "OperationOutcome") →
  accessible (record_of document) = false
  ∧ data_quality_score (record_of document) = 0.
Proof.
  intros -> Houtcome. unfold record_of, assess_document. simpl.
  destruct (_validate_fhir_response d) as [v|e] eqn:Hv; simpl; [|done].
  pose proof (validate_outcome_inv _ _ Houtcome Hv) as Hinvalid.
  split; [exact Hinvalid | by apply score_of_invalid].
Qed.

(** The record of a category whose gateway call raised. *)
Lemma record_of_raise (e : exn) :
  record_of (Raise e) = mkResourceAssessment false None None (Some (exn_str e)) 0.
Proof. reflexivity. Qed.

(** The record of a category whose document made the validation raise. *)
Lemma record_of_invalid_document (d : gmap string json) (e : exn) :
  _validate_fhir_response d = Raise e →
  record_of (Ok d) = mkResourceAssessment false None None (Some (exn_str e)) 0.
Proof.
  intros Hv. unfold record_of, assess_document. simpl. by rewrite Hv.
Qed.

(** The record of a category whose document was validated. *)
Lemma record_of_validated (d : gmap string json) (v : ValidationResult) :
  _validate_fhir_response d = Ok v →
  record_of (Ok d)
  = mkResourceAssessment (is_valid v)
      (Some (default (JNum 0) (total_resources (data_quality v))))
      (Some (issues v)) None (_calculate_quality_score v).
Proof.
  intros Hv. unfold record_of, assess_document. simpl. by rewrite Hv.
Qed.

(** C7. [assess_data_quality] does not raise, and it stores one record
    per category of the list, in order, each made from the gateway call
    of its own category alone, whatever happened for the categories
    before it.  The record of a category for which the gateway returned
    an OperationOutcome has [accessible] false and score 0.  The record
    of a category whose gateway call raised, or whose document made the
    validation raise, has [accessible] false, score 0 and the text of the
    exception, and nothing else.  The record of every other category is
    the assessment of its document: the validity, the total, the issues
    and the score of the validation result. *)
Theorem assessment_isolates_failures (resource_type : option string)
    (sent : list request) :
  ∃ assessment,
    (assess_data_quality self resource_type sent).1 = Ok assessment
    ∧ (resource_assessments assessment).*1 = test_resources resource_type
    ∧ ∀ i resource,
        test_resources resource_type !! i = Some resource →
        let document :=
          (_make_request self "GET" resource sample_search
             (sent ++ category_requests self
                        (take i (test_resources resource_type)))).1 in
        ∃ record,
          resource_assessments assessment !! i = Some (resource, record)
          ∧ (∀ d, document = Ok d →
                  d !! "resourceType" = Some (JStr "OperationOutcome") →
                  accessible record = false ∧ data_quality_score record = 0)
          ∧ (∀ e, document = Raise e →
                  record = mkResourceAssessment false None None
                             (Some (exn_str e)) 0)
          ∧ (∀ d e, document = Ok d → _validate_fhir_response d = Raise e →
                    record = mkResourceAssessment false None None
                               (Some (exn_str e)) 0)
          ∧ (∀ d v, document = Ok d → _validate_fhir_response d = Ok v →
                    record
                    = mkResourceAssessment (is_valid v)
                        (Some (default (JNum 0)
                                 (total_resources (data_quality v))))
                        (Some (issues v)) None (_calculate_quality_score v)).
Proof.
  rewrite assess_data_quality_spec. eexists. split; [reflexivity|]. simpl.
  split; [apply category_records_keys|].
  intros i resource Hi. eexists.
  split; [by apply category_records_lookup|].
  unfold category_document. split; [|split; [|split]].
  - intros d Hd Houtcome. by apply (record_of_outcome _ d).
  - intros e ->. apply record_of_raise.
  - intros d e -> Hv. by apply record_of_invalid_document.
  - intros d v -> Hv. by apply record_of_validated.
Qed.

(** C8 (as amended). Without a [resource_type], and also with the empty
    string, [assess_data_quality] evaluates "Patient", "Observation",
    "Condition" and "MedicationRequest", in that order: it makes their
    four gateway calls (each sends its request when its URL can be built)
    and stores their four records in that order.  With a non-empty
    [resource_type] it evaluates that category alone. *)
Theorem categories_evaluated (sent : list request) :
  let basic := ["Patient"; "Observation"; "Condition"; "MedicationRequest"] in
  (∃ assessment,
     assess_data_quality self None sent
     = (Ok assessment, sent ++ category_requests self basic)
     ∧ (resource_assessments assessment).*1 = basic)
  ∧ assess_data_quality self (Some "") sent = assess_data_quality self None sent
  ∧ (∀ resource, resource ≠ "" →
       ∃ assessment,
         assess_data_quality self (Some resource) sent
         = (Ok assessment, sent ++ sent_by (category_request self resource))
         ∧ (resource_assessments assessment).*1 = [resource]).
Proof.
  intros basic. split; [|split].
  - rewrite assess_data_quality_spec. eexists. split; [reflexivity|].
    apply category_records_keys.
  - reflexivity.
  - intros resource Hresource. rewrite assess_data_quality_spec.
    unfold test_resources. rewrite bool_decide_eq_false_2 by exact Hresource.
    assert (category_requests self [resource]
            = sent_by (category_request self resource)) as ->
      by (unfold category_requests; simpl; by rewrite app_nil_r).
    eexists. split; [reflexivity|]. apply category_records_keys.
Qed.

End Assessment.

Lemma assessment_isolates_failures_witness :
  ∃ assessment record,
    (@assess_data_quality not_found_runtime test_client (Some "Patient") []).1
    = Ok assessment
    ∧ resource_assessments assessment = [("Patient", record)]
    ∧ accessible record = false
    ∧ data_quality_score record = 0.
Proof.
  destruct (@assessment_isolates_failures not_found_runtime test_client
              (Some "Patient") []) as (assessment & Hassessment & Hkeys & Hrecords).
  destruct (Hrecords 0%nat "Patient" eq_refl) as (record & Hlookup & Houtcome & _).
  destruct (Houtcome (operation_outcome "not-found" "Resource not found: Patient")
              eq_refl eq_refl) as [Haccessible Hscore].
  exists assessment, record. split; [exact Hassessment|].
  split; [|split; assumption].
  destruct (resource_assessments assessment) as [|first [|second rest]];
    try discriminate.
  by injection Hlookup as ->.
Defined.

(** A run in which the assessment of the first category raises (its
    Bundle has an entry with a null resource): the record keeps the text
    of the exception and the three other categories are assessed. *)
Example assessment_continues_after_exception :
  (@assess_data_quality mixed_runtime test_client None []).1
  = Ok (mkAssessment "https://hapi.fhir.org/baseR4" "2024-01-01T00:00:00"
          [("Patient",
            mkResourceAssessment false None None
              (Some "'NoneType' object has no attribute 'get'") 0);
           ("Observation",
            mkResourceAssessment true (Some (JNum 2)) (Some []) None 100);
           ("Condition",
            mkResourceAssessment true (Some (JNum 2)) (Some []) None 100);
           ("MedicationRequest",
            mkResourceAssessment true (Some (JNum 2)) (Some []) None 100)]).
Proof. vm_compute. reflexivity. Qed.

(** A run in which the gateway call itself raises: [urljoin] rejects the
    URL of the category "//[", the record keeps the text of the exception
    and no request is sent. *)
Example assessment_records_gateway_exception :
  @assess_data_quality checked_runtime test_client (Some "//[") []
  = (Ok (mkAssessment "https://hapi.fhir.org/baseR4" "2024-01-01T00:00:00"
           [("//[",
             mkResourceAssessment false None None (Some "Invalid IPv6 URL") 0)]),
     []).
Proof. vm_compute. reflexivity. Qed.

(** A client whose base URL [urljoin] rejects: the gateway call of each
    of the four categories raises, each has its record, no request is
    sent. *)
Example assessment_with_rejected_base_url :
  @assess_data_quality checked_runtime ipv6_client None []
  = (Ok (mkAssessment "http://[::1" "2024-01-01T00:00:00"
           ((fun resource =>
               (resource,
                mkResourceAssessment false None None (Some "Invalid IPv6 URL") 0))
              <$> ["Patient"; "Observation"; "Condition"; "MedicationRequest"])),
     []).
Proof. vm_compute. reflexivity. Qed.

Lemma categories_evaluated_witness :
  ∃ assessment,
    @assess_data_quality not_found_runtime test_client (Some "Observation") []
    = (Ok assessment,
       [mkRequest "GET" "https://hapi.fhir.org/baseR4/Observation"
          [("Accept", "application/fhir+json");
           ("Content-Type", "application/fhir+json")]
          sample_search])
    ∧ (resource_assessments assessment).*1 = ["Observation"].
Proof.
  destruct (@categories_evaluated not_found_runtime test_client [])
    as (_ & _ & Hsingle).
  apply (Hsingle "Observation"). discriminate.
Defined.

(** The claim C8 as it is stated fails for the empty string: it is a
    [resource_type] that was supplied, and the four basic categories are
    evaluated, not the one named by it. *)
Lemma empty_resource_type_evaluates_all :
  test_resources (Some "") ≠ [""]
  ∧ match (@assess_data_quality not_found_runtime test_client (Some "") []).1 with
    | Ok assessment => (resource_assessments assessment).*1
    | Raise _ => []
    end = ["Patient"; "Observation"; "Condition"; "MedicationRequest"]
  ∧ req_url <$> (@assess_data_quality not_found_runtime test_client (Some "") []).2
    = ["https://hapi.fhir.org/baseR4/Patient";
       "https://hapi.fhir.org/baseR4/Observation";
       "https://hapi.fhir.org/baseR4/Condition";
       "https://hapi.fhir.org/baseR4/MedicationRequest"].
Proof.
  split; [discriminate|]. split; vm_compute; reflexivity.
Qed.

(** ** The overall average *)

Lemma fold_add_record (records : list (string * ResourceAssessment))
    (overall_score : Z) (resource_count : nat) :
  let scores :=
    (fun item => data_quality_score item.2)
      <$> filter (fun item => accessible item.2 = true) records in
  fold_left add_record records (overall_score, resource_count)
  = (overall_score + sum_scores scores, (resource_count + length scores)%nat).
Proof.
  revert overall_score resource_count.
  induction records as [|item records IH]; intros overall_score resource_count.
  - unfold sum_scores. simpl. apply injective_projections; simpl; lia.
  - simpl fold_left. rewrite filter_cons. cbv zeta.
    destruct (accessible item.2) eqn:Haccessible.
    + rewrite decide_True by done. rewrite IH. cbv zeta. rewrite fmap_cons.
      generalize ((fun item0 : string * ResourceAssessment =>
                     data_quality_score item0.2)
                    <$> filter (fun item0 => accessible item0.2 = true) records).
      intros scores. unfold sum_scores. simpl.
      apply injective_projections; simpl; lia.
    + rewrite decide_False by done. apply IH.
Qed.

(** C9. The average the caller reports is the sum of the scores of the
    categories whose record has [accessible] true, divided by their
    number: a category that is not accessible changes neither the sum nor
    the divisor, and when no category is accessible no average is
    reported. *)
Theorem average_over_accessible (assessment : Assessment) :
  overall_average assessment
  = match accessible_scores assessment with
    | [] => None
    | scores =>
        Some (inject_Z (sum_scores scores)
              / inject_Z (Z.of_nat (length scores)))%Q
    end
  ∧ (∀ before after name record,
       resource_assessments assessment = before ++ (name, record) :: after →
       accessible record = false →
       overall_average assessment
       = overall_average
           (mkAssessment (server_url assessment) (timestamp assessment)
              (before ++ after)))
  ∧ ((∀ item, item ∈ resource_assessments assessment →
              accessible item.2 = false) →
     overall_average assessment = None).
Proof.
  assert (∀ a, overall_average a
               = match accessible_scores a with
                 | [] => None
                 | scores =>
                     Some (inject_Z (sum_scores scores)
                           / inject_Z (Z.of_nat (length scores)))%Q
                 end) as Hformula.
  { intros a. unfold overall_average, accessible_scores.
    rewrite fold_add_record. simpl.
    destruct (_ <$> filter _ _) as [|score scores]; [reflexivity|].
    rewrite bool_decide_eq_true_2 by (simpl; lia). reflexivity. }
  split; [apply Hformula|]. split.
  - intros before after name record Hrecords Hinaccessible.
    rewrite !Hformula. unfold accessible_scores. rewrite Hrecords. simpl.
    rewrite !filter_app, filter_cons. simpl.
    rewrite decide_False by (rewrite Hinaccessible; discriminate). reflexivity.
  - intros Hnone. rewrite Hformula. unfold accessible_scores.
    assert (filter (fun item : string * ResourceAssessment =>
                      accessible item.2 = true)
                   (resource_assessments assessment) = []) as ->; [|reflexivity].
    induction (resource_assessments assessment) as [|item records IH];
      [reflexivity|].
    rewrite filter_cons, decide_False.
    + apply IH. intros item' Hin. apply Hnone. by right.
    + rewrite (Hnone item) by (by left). discriminate.
Qed.

Lemma average_over_accessible_witness :
  overall_average sample_assessment = Some (150 # 2)%Q
  ∧ accessible_scores sample_assessment = [100; 50].
Proof.
  destruct (average_over_accessible sample_assessment) as [Hformula _].
  split; [|reflexivity]. rewrite Hformula. reflexivity.
Defined.

(** * Further properties of the validator and the scorer *)

(** The three ways a validation returns. *)
Lemma validate_cases (response : gmap string json) (v : ValidationResult) :
  _validate_fhir_response response = Ok v →
  (response !! "resourceType" = Some (JStr "OperationOutcome")
   ∧ is_valid v = false ∧ data_quality v = no_data_quality)
  ∨ (response !! "resourceType" = Some (JStr "Bundle") ∧ is_valid v = true)
  ∨ (response !! "resourceType" ≠ Some (JStr "OperationOutcome")
     ∧ response !! "resourceType" ≠ Some (JStr "Bundle")
     ∧ is_valid v = true ∧ issues v = [] ∧ data_quality v = no_data_quality).
Proof.
  intros Hv.
  destruct (py_eq (dict_get response "resourceType" JNull)
                  (JStr "OperationOutcome")) eqn:Eoutcome.
  - left. apply discriminator_is in Eoutcome. split; [exact Eoutcome|].
    unfold _validate_fhir_response in Hv.
    rewrite !(dict_get_lookup _ _ _ Eoutcome) in Hv. simpl in Hv.
    bind_inv Hv items Hitems. bind_inv Hv copied Hcopied.
    by injection Hv as <-.
  - destruct (py_eq (dict_get response "resourceType" JNull) (JStr "Bundle"))
      eqn:Ebundle.
    + right. left. apply discriminator_is in Ebundle. split; [exact Ebundle|].
      by destruct (validate_bundle_inv _ _ Ebundle Hv) as [Hvalid _].
    + right. right. unfold _validate_fhir_response in Hv.
      rewrite Eoutcome, Ebundle in Hv. injection Hv as <-.
      split; [by rewrite <- discriminator_is, Eoutcome|].
      split; [by rewrite <- discriminator_is, Ebundle|]. done.
Qed.

(** X1. The score of any validation result lies between 0 and 100. *)
Theorem score_between_0_and_100 (validation : ValidationResult) :
  0 <= _calculate_quality_score validation <= 100.
Proof.
  destruct (is_valid validation) eqn:Hvalid.
  - rewrite (score_of_valid _ Hvalid). unfold deductions.
    destruct (bool_decide _), (py_eq _ (JNum 0)); lia.
  - rewrite (score_of_invalid _ Hvalid). lia.
Qed.

(** The score of a Bundle's validation result: 100, less 30 when orphaned
    references were found (10 for the warning, 20 for the count), less 50
    when the total is 0. *)
Lemma bundle_score (response : gmap string json) (v : ValidationResult) :
  response !! "resourceType" = Some (JStr "Bundle") →
  _validate_fhir_response response = Ok v →
  _calculate_quality_score v
  = 100
    - (if orphaned_patient_refs (data_quality v) is Some _ then 30 else 0)
    - (if py_eq (dict_get response "total" (JNum 0)) (JNum 0) then 50 else 0).
Proof.
  intros Hbundle Hv.
  destruct (validate_bundle_inv _ _ Hbundle Hv) as (Hvalid & _ & Htotal & Hissue).
  rewrite (score_of_valid _ Hvalid). unfold deductions, count_severity.
  rewrite Htotal. simpl.
  destruct (set_truthy _ && set_truthy _ && set_truthy _) eqn:Hdetected.
  - destruct Hissue as [-> ->].
    apply andb_true_iff in Hdetected as [_ Horphaned].
    apply set_truthy_true in Horphaned.
    assert (size (referenced_patient_ids response
                  ∖ patients_seen (list_field response "entry")) ≠ 0%nat)
      as Hsize by (by intros ?%size_empty_inv%leibniz_equiv).
    rewrite !filter_cons, !filter_nil. simpl.
    rewrite bool_decide_eq_true_2 by lia.
    destruct (py_eq _ (JNum 0)); reflexivity.
  - destruct Hissue as [-> ->]. simpl.
    destruct (py_eq _ (JNum 0)); reflexivity.
Qed.

(** X2. Whatever the document, the score of its validation result is one of
    0, 20, 50, 70 and 100: the 30 points of an issue of severity "error" are
    never deducted from the result of a validation, since only invalid
    results carry such issues and they score 0. *)
Theorem validated_scores (response : gmap string json) (v : ValidationResult) :
  _validate_fhir_response response = Ok v →
  _calculate_quality_score v ∈ [0; 20; 50; 70; 100].
Proof.
  intros Hv. destruct (validate_cases _ _ Hv)
    as [(_ & Hinvalid & _) | [[Hbundle _] | (_ & _ & Hvalid & Hissues & Hquality)]].
  - rewrite (score_of_invalid _ Hinvalid). set_solver.
  - rewrite (bundle_score _ _ Hbundle Hv).
    destruct (orphaned_patient_refs _), (py_eq _ (JNum 0)); simpl; set_solver.
  - rewrite (score_of_valid _ Hvalid). unfold deductions, count_severity.
    rewrite Hissues, Hquality. simpl. set_solver.
Qed.

(** X3. A validation result is invalid exactly when the document is an
    OperationOutcome; such a result has an empty [data_quality] and scores 0,
    and every other result scores at least 20. *)
Theorem invalid_iff_outcome (response : gmap string json) (v : ValidationResult) :
  _validate_fhir_response response = Ok v →
  (is_valid v = false ↔ response !! "resourceType" = Some (JStr "OperationOutcome"))
  ∧ (is_valid v = false →
     data_quality v = no_data_quality ∧ _calculate_quality_score v = 0)
  ∧ (is_valid v = true → 20 <= _calculate_quality_score v).
Proof.
  intros Hv. destruct (validate_cases _ _ Hv)
    as [(Houtcome & Hinvalid & Hquality)
       | [[Hbundle Hvalid] | (Hnot & _ & Hvalid & Hissues & Hquality)]].
  - split; [done|]. split; [|congruence].
    intros _. split; [exact Hquality | by apply score_of_invalid].
  - split; [split; congruence|]. split; [congruence|]. intros _.
    rewrite (bundle_score _ _ Hbundle Hv).
    destruct (orphaned_patient_refs _), (py_eq _ (JNum 0)); lia.
  - split; [split; [congruence | contradiction]|]. split; [congruence|].
    intros _. rewrite (score_of_valid _ Hvalid). unfold deductions, count_severity.
    rewrite Hissues, Hquality. simpl. lia.
Qed.

(** X4. A Bundle whose [total] is 0, or that has no [total] at all, scores
    50, or 20 when orphaned references were found: never more than 50. *)
Theorem bundle_without_total_scores_at_most_50
    (response : gmap string json) (v : ValidationResult) :
  response !! "resourceType" = Some (JStr "Bundle") →
  response !! "total" = None ∨ response !! "total" = Some (JNum 0) →
  _validate_fhir_response response = Ok v →
  _calculate_quality_score v
  = (if orphaned_patient_refs (data_quality v) is Some _ then 20 else 50)
  ∧ _calculate_quality_score v <= 50.
Proof.
  intros Hbundle Htotal Hv. rewrite (bundle_score _ _ Hbundle Hv).
  assert (dict_get response "total" (JNum 0) = JNum 0) as ->.
  { destruct Htotal as [Habsent | Hzero];
      [by apply dict_get_absent | by apply dict_get_lookup]. }
  simpl. destruct (orphaned_patient_refs _); split; (reflexivity || lia).
Qed.

Lemma bundle_without_total_scores_at_most_50_witness :
  ∃ v, _validate_fhir_response bare_bundle = Ok v
       ∧ _calculate_quality_score v = 50.
Proof.
  destruct (_validate_fhir_response bare_bundle)
    as [v|e] eqn:Hv; [|vm_compute in Hv; discriminate].
  exists v. split; [reflexivity|].
  destruct (bundle_without_total_scores_at_most_50
              bare_bundle v eq_refl (or_introl eq_refl) Hv) as [Hscore _].
  rewrite Hscore. vm_compute in Hv. by injection Hv as <-.
Defined.

Lemma validated_scores_witness :
  ∃ v, _validate_fhir_response orphan_bundle = Ok v
       ∧ _calculate_quality_score v ∈ [0; 20; 50; 70; 100]
       ∧ _calculate_quality_score v = 70.
Proof.
  destruct (_validate_fhir_response orphan_bundle) as [v|e] eqn:Hv;
    [|vm_compute in Hv; discriminate].
  exists v. split; [reflexivity|].
  split; [exact (validated_scores orphan_bundle v Hv)|].
  vm_compute in Hv. by injection Hv as <-.
Defined.

Lemma invalid_iff_outcome_witness :
  ∃ v, _validate_fhir_response outcome_without_details = Ok v
       ∧ is_valid v = false
       ∧ _calculate_quality_score v = 0.
Proof.
  destruct (_validate_fhir_response outcome_without_details) as [v|e] eqn:Hv;
    [|vm_compute in Hv; discriminate].
  destruct (invalid_iff_outcome outcome_without_details v Hv)
    as ([_ Hinvalid] & Hscore & _).
  exists v. split; [reflexivity|]. split; [by apply Hinvalid|].
  by apply Hscore, Hinvalid.
Defined.

(** ** The count of orphaned references *)

Lemma size_list_to_set_le (keys : list pykey) :
  (size (list_to_set (C := gset pykey) keys) ≤ length keys)%nat.
Proof.
  induction keys as [|key keys IH].
  - change (size (∅ : gset pykey) ≤ 0)%nat. by rewrite size_empty.
  - rewrite list_to_set_cons, size_union_alt, size_singleton. simpl length.
    pose proof (subseteq_size (list_to_set keys ∖ {[key]})
                  (list_to_set (C := gset pykey) keys)) as Hle.
    assert (list_to_set (C := gset pykey) keys ∖ {[key]} ⊆ list_to_set keys)
      as Hsub by set_solver.
    specialize (Hle Hsub). lia.
Qed.

Lemma length_omap_le {A B : Type} (f : A → option B) (l : list A) :
  (length (omap f l) ≤ length l)%nat.
Proof.
  induction l as [|x l IH]; [simpl; lia|].
  change (omap f (x :: l))
    with (match f x with Some y => y :: omap f l | None => omap f l end).
  destruct (f x); simpl length; lia.
Qed.

Lemma length_omap_lt {A B : Type} (f : A → option B) (l : list A) (x : A) :
  x ∈ l → f x = None → (length (omap f l) < length l)%nat.
Proof.
  induction l as [|y l IH]; intros Hin Hnone; [by apply not_elem_of_nil in Hin|].
  change (omap f (y :: l))
    with (match f y with Some z => z :: omap f l | None => omap f l end).
  apply elem_of_cons in Hin as [<- | Hin].
  - pose proof (length_omap_le f l). rewrite Hnone. simpl length. lia.
  - specialize (IH Hin Hnone). destruct (f y); simpl length; lia.
Qed.

Lemma py_len_iter (x : json) (n : nat) (items : list json) :
  py_len x = Ok n → py_iter x = Ok items → n = length items.
Proof.
  destruct x as [| | |s|l|d]; simpl; try discriminate; intros [= <-] [= <-].
  - induction s as [|a s IH]; simpl; [reflexivity | by rewrite IH].
  - reflexivity.
  - by rewrite !length_fmap, length_map_to_list.
Qed.

(** The number of entries a completed validation of a Bundle reports. *)
Lemma validate_bundle_returned (response : gmap string json) (v : ValidationResult) :
  response !! "resourceType" = Some (JStr "Bundle") →
  _validate_fhir_response response = Ok v →
  returned_resources (data_quality v)
  = Some (length (list_field response "entry")).
Proof.
  intros Hbundle H. unfold _validate_fhir_response in H.
  rewrite !(dict_get_lookup _ _ _ Hbundle) in H. simpl in H.
  bind_inv H returned Hreturned. bind_inv H links Hlinks.
  bind_inv H next Hnext. bind_inv H items Hitems.
  bind_inv H rtypes Hrtypes. bind_inv H sets Hscan.
  destruct sets as [R A].
  pose proof (py_len_iter _ _ _ Hreturned Hitems) as ->.
  pose proof (scanned_entries _ _ _ _ Hitems Hscan) as ->.
  destruct (set_truthy R && set_truthy A); [destruct (set_truthy (R ∖ A))|];
    by injection H as <-.
Qed.

(** X5. In every valid validation result the count of orphaned references
    and the orphaned-references issue come together: either there is no
    count and no issue, or there is a count [n], the single issue "Found
    [n] orphaned patient references", and [n] is at least 1 and less than
    the number of entries returned (one entry at least is a Patient). *)
Theorem orphan_count_and_issue_agree (response : gmap string json)
    (v : ValidationResult) :
  _validate_fhir_response response = Ok v →
  is_valid v = true →
  match orphaned_patient_refs (data_quality v) with
  | Some n =>
      issues v = [orphaned_issue n]
      ∧ (1 ≤ n)%nat
      ∧ ∃ returned, returned_resources (data_quality v) = Some returned
                    ∧ (n < returned)%nat
  | None => issues v = []
  end.
Proof.
  intros Hv Hvalid. destruct (validate_cases _ _ Hv)
    as [(_ & Hinvalid & _) | [[Hbundle _] | (_ & _ & _ & Hissues & Hquality)]].
  - congruence.
  - destruct (validate_bundle_inv _ _ Hbundle Hv) as (_ & _ & _ & Hissue).
    rewrite (validate_bundle_returned _ _ Hbundle Hv).
    destruct (set_truthy _ && set_truthy _ && set_truthy _) eqn:Hdetected.
    2:{ by destruct Hissue as [-> ->]. }
    destruct Hissue as [-> ->]. split; [reflexivity|].
    apply andb_true_iff in Hdetected as [[_ Hseen]%andb_true_iff Horphaned].
    apply set_truthy_true in Hseen, Horphaned.
    unfold referenced_patient_ids in *.
    generalize dependent (list_field response "entry"). intros entries Hseen Horphaned.
    split.
    + destruct (size (referenced_ids entries ∖ patients_seen entries)) eqn:Hsize;
        [|lia].
      apply size_empty_inv, leibniz_equiv in Hsize. contradiction.
    + exists (length entries). split; [reflexivity|].
      destruct (patients_seen_some _ Hseen) as (patient & Hin & Hpatient).
      assert (referenced_id patient = None) as Hnone
        by (unfold referenced_id; by rewrite Hpatient).
      pose proof (length_omap_lt referenced_id entries patient Hin Hnone).
      pose proof (size_list_to_set_le (omap referenced_id entries)).
      assert (size (referenced_ids entries ∖ patients_seen entries)
              ≤ size (referenced_ids entries))%nat
        by (apply subseteq_size; set_solver).
      unfold referenced_ids in *. lia.
  - by rewrite Hquality, Hissues.
Qed.

Lemma orphan_count_and_issue_agree_witness :
  ∃ v, _validate_fhir_response orphan_bundle = Ok v
       ∧ orphaned_patient_refs (data_quality v) = Some 1%nat
       ∧ returned_resources (data_quality v) = Some 2%nat
       ∧ issues v = [orphaned_issue 1].
Proof.
  destruct (_validate_fhir_response orphan_bundle) as [v|e] eqn:Hv;
    [|vm_compute in Hv; discriminate].
  assert (is_valid v = true ∧ orphaned_patient_refs (data_quality v) = Some 1%nat
          ∧ returned_resources (data_quality v) = Some 2%nat)
    as (Hvalid & Hcount & Hreturned).
  { vm_compute in Hv. injection Hv as <-. by repeat split. }
  pose proof (orphan_count_and_issue_agree orphan_bundle v Hv Hvalid) as H.
  rewrite Hcount in H. destruct H as [Hissues _].
  exists v. by repeat split.
Defined.

(** ** Well-formed Bundles *)

Lemma collect_resource_types_spec (entries : list json) (seen : gset pykey) :
  forallb well_formed_entry entries = true →
  collect_resource_types entries seen
  = Ok (seen ∪ list_to_set (omap entry_type_key entries)).
Proof.
  revert seen. induction entries as [|entry entries IH]; intros seen H.
  - simpl. f_equal. set_solver.
  - simpl in H. apply andb_true_iff in H as [Hentry Hrest].
    rewrite keys_cons.
    destruct entry as [| | | | |fields]; try discriminate.
    simpl. simpl in Hentry.
    destruct (fields !! "resource") as [resource|] eqn:E.
    + rewrite bool_decide_eq_true_2 by eauto. simpl.
      rewrite (dict_get_lookup _ _ _ E).
      destruct resource as [| | | | |r]; try discriminate. simpl.
      unfold well_formed_resource in Hentry.
      apply andb_true_iff in Hentry as [Hhash _]. unfold key_of.
      destruct (dict_get r "resourceType" JNull); try discriminate; simpl;
        rewrite (IH _ Hrest); f_equal; set_solver.
    + rewrite bool_decide_eq_false_2 by (by intros [? ?]).
      rewrite (IH _ Hrest). f_equal. set_solver.
Qed.

Lemma any_relation_next_spec (links : list json) :
  forallb well_formed_link links = true →
  any_relation_next links = Ok (existsb link_is_next links).
Proof.
  induction links as [|link links IH]; intros H; [reflexivity|].
  simpl in H. apply andb_true_iff in H as [Hlink Hrest].
  destruct link as [| | | | |fields]; try discriminate. simpl.
  destruct (py_eq _ _); [reflexivity | by apply IH].
Qed.

Lemma scan_entries_spec (entries : list json) :
  forallb well_formed_entry entries = true →
  scan_entries entries (∅, ∅)
  = Ok (referenced_ids entries, patients_seen entries).
Proof.
  intros H. destruct (scan_entries_well_formed entries (∅, ∅) H) as [[R A] E].
  rewrite E. apply scan_entries_inv in E as [-> ->].
  by rewrite !(left_id_L ∅ (∪)).
Qed.

(** The validation of a well-formed Bundle, as one equation. *)
Lemma validate_well_formed_bundle (response : gmap string json) :
  response !! "resourceType" = Some (JStr "Bundle") →
  well_formed_bundle response = true →
  _validate_fhir_response response = Ok (expected_bundle_result response).
Proof.
  intros Hbundle [Hentries Hlinks]%andb_true_iff.
  apply list_field_of_true in Hentries as [Eentry Hentries].
  apply list_field_of_true in Hlinks as [Elink Hlinks].
  unfold _validate_fhir_response, expected_bundle_result.
  rewrite !(dict_get_lookup _ _ _ Hbundle). simpl.
  rewrite Eentry, Elink. simpl.
  rewrite (any_relation_next_spec _ Hlinks). simpl.
  rewrite (collect_resource_types_spec _ ∅ Hentries). simpl.
  rewrite (scan_entries_spec _ Hentries). simpl.
  rewrite (left_id_L ∅ (∪)).
  destruct (set_truthy (referenced_ids _) && set_truthy (patients_seen _));
    [destruct (set_truthy (_ ∖ _))|]; reflexivity.
Qed.

(** X6. For a well-formed Bundle the validation returns, and its quality
    data say what their names say: [total_resources] is the [total] of the
    document (0 when it has none), [returned_resources] the number of its
    entries, [has_next_page] whether one of its links has the relation
    "next", [resource_types] the set of the resource types of the entries
    that carry a resource. *)
Theorem bundle_quality_data (response : gmap string json) :
  response !! "resourceType" = Some (JStr "Bundle") →
  well_formed_bundle response = true →
  ∃ v, _validate_fhir_response response = Ok v
       ∧ is_valid v = true
       ∧ total_resources (data_quality v)
         = Some (default (JNum 0) (response !! "total"))
       ∧ returned_resources (data_quality v)
         = Some (length (list_field response "entry"))
       ∧ has_next_page (data_quality v)
         = Some (existsb link_is_next (list_field response "link"))
       ∧ resource_types (data_quality v)
         = Some (list_to_set (omap entry_type_key (list_field response "entry"))).
Proof.
  intros Hbundle Hshape. eexists.
  split; [by apply validate_well_formed_bundle|]. simpl.
  unfold dict_get. by destruct (response !! "total").
Qed.

Lemma bundle_quality_data_witness :
  ∃ v, _validate_fhir_response clean_bundle = Ok v
       ∧ total_resources (data_quality v) = Some (JNum 2)
       ∧ returned_resources (data_quality v) = Some 2%nat
       ∧ has_next_page (data_quality v) = Some false
       ∧ resource_types (data_quality v)
         = Some {[ KStr "Patient"; KStr "Observation" ]}.
Proof.
  destruct (bundle_quality_data clean_bundle eq_refl eq_refl)
    as (v & Hv & _ & Htotal & Hreturned & Hnext & Htypes).
  exists v. split; [exact Hv|].
  split; [exact Htotal|]. split; [exact Hreturned|]. split; [exact Hnext|].
  rewrite Htypes. vm_compute. reflexivity.
Defined.

Lemma forallb_Permutation {A : Type} (P : A → bool) (l l' : list A) :
  l ≡ₚ l' → forallb P l = true → forallb P l' = true.
Proof.
  intros Hperm H. apply forallb_forall. intros x Hin.
  eapply forallb_forall in H; [exact H|].
  eapply Permutation_in; [symmetry; exact Hperm | exact Hin].
Qed.

(** X7. What the validation of a well-formed Bundle reports does not
    depend on the order of its entries: with the entries in another order
    it returns a result with the same validity, the same issues, the same
    total, the same counts of returned resources and of orphaned
    references, the same next-page flag, the same resource types (as a
    set: the order in which line 175 lists them is not fixed) and the same
    score. *)
Theorem validation_ignores_entry_order (response : gmap string json)
    (entries entries' : list json) :
  response !! "resourceType" = Some (JStr "Bundle") →
  entries ≡ₚ entries' →
  well_formed_bundle (<["entry" := JArr entries]> response) = true →
  ∃ v v',
    _validate_fhir_response (<["entry" := JArr entries]> response) = Ok v
    ∧ _validate_fhir_response (<["entry" := JArr entries']> response) = Ok v'
    ∧ is_valid v' = is_valid v
    ∧ issues v' = issues v
    ∧ resource_type v' = resource_type v
    ∧ total_resources (data_quality v') = total_resources (data_quality v)
    ∧ returned_resources (data_quality v') = returned_resources (data_quality v)
    ∧ has_next_page (data_quality v') = has_next_page (data_quality v)
    ∧ orphaned_patient_refs (data_quality v')
      = orphaned_patient_refs (data_quality v)
    ∧ (∀ key, key ∈ default ∅ (resource_types (data_quality v'))
              ↔ key ∈ default ∅ (resource_types (data_quality v)))
    ∧ _calculate_quality_score v' = _calculate_quality_score v.
Proof.
  intros Hbundle Hperm Hshape.
  assert (∀ l, (<["entry" := JArr l]> response) !! "resourceType"
               = Some (JStr "Bundle")) as Hbundle'
    by (intros l; by rewrite lookup_insert_ne).
  assert (∀ l, list_field (<["entry" := JArr l]> response) "entry" = l) as Hentry
    by (intros l; unfold list_field; by rewrite lookup_insert_eq).
  assert (∀ l, list_field (<["entry" := JArr l]> response) "link"
               = list_field response "link") as Hlink
    by (intros l; unfold list_field; by rewrite lookup_insert_ne).
  assert (∀ l, dict_get (<["entry" := JArr l]> response) "total" (JNum 0)
               = dict_get response "total" (JNum 0)) as Htotal
    by (intros l; unfold dict_get; by rewrite lookup_insert_ne).
  assert (well_formed_bundle (<["entry" := JArr entries']> response) = true)
    as Hshape'.
  { unfold well_formed_bundle in *.
    rewrite lookup_insert_eq, lookup_insert_ne in * by done.
    apply andb_true_iff in Hshape as [Hentries Hlinks].
    apply andb_true_iff. split; [|exact Hlinks]. simpl in *.
    by apply (forallb_Permutation _ entries). }
  assert (expected_bundle_result (<["entry" := JArr entries']> response)
          = expected_bundle_result (<["entry" := JArr entries]> response))
    as Hsame.
  { unfold expected_bundle_result. rewrite !Hentry, !Hlink, !Htotal.
    assert (∀ f : json → option pykey,
              list_to_set (C := gset pykey) (omap f entries')
              = list_to_set (omap f entries)) as Hkeys.
    { intros f. apply list_to_set_perm_L. by rewrite Hperm. }
    unfold referenced_ids, patients_seen.
    rewrite !Hkeys, (Permutation_length Hperm). reflexivity. }
  exists (expected_bundle_result (<["entry" := JArr entries]> response)),
         (expected_bundle_result (<["entry" := JArr entries']> response)).
  split; [by apply validate_well_formed_bundle|].
  split; [by apply validate_well_formed_bundle|].
  rewrite Hsame. by repeat split.
Qed.

Lemma validation_ignores_entry_order_witness :
  ∃ v v',
    _validate_fhir_response
      (insert "entry" (JArr [patient_entry "1"; observation_entry "Patient/2"])
         orphan_bundle) = Ok v
    ∧ _validate_fhir_response
        (insert "entry" (JArr [observation_entry "Patient/2"; patient_entry "1"])
           orphan_bundle) = Ok v'
    ∧ issues v' = issues v
    ∧ _calculate_quality_score v' = _calculate_quality_score v.
Proof.
  destruct (validation_ignores_entry_order orphan_bundle
              [patient_entry "1"; observation_entry "Patient/2"]
              [observation_entry "Patient/2"; patient_entry "1"])
    as (v & v' & Hv & Hv' & _ & Hissues & _ & _ & _ & _ & _ & _ & Hscore).
  - reflexivity.
  - apply Permutation_swap.
  - vm_compute. reflexivity.
  - exists v, v'. auto.
Defined.

(** ** The last segment of a reference *)

Lemma contains_slash_cons (a : ascii) (s : string) :
  contains_slash (String a s) = bool_decide (a = "/"%char) || contains_slash s.
Proof.
  unfold contains_slash. simpl. rewrite andb_true_r. f_equal.
  destruct (decide (a = "/"%char)) as [->|Hne].
  - by rewrite !bool_decide_eq_true_2.
  - rewrite !bool_decide_eq_false_2; congruence.
Qed.

Lemma last_segment_from_spec (s acc : string) :
  last_segment_from acc s = if contains_slash s then last_segment s else acc.
Proof.
  revert acc. induction s as [|a s IH]; intros acc; [reflexivity|].
  rewrite contains_slash_cons. unfold last_segment. simpl.
  destruct (bool_decide (a = "/"%char)); simpl; [reflexivity|].
  rewrite (IH acc), (IH (String a s)). by destruct (contains_slash s).
Qed.

Lemma last_segment_cons (a : ascii) (s : string) :
  last_segment (String a s)
  = if bool_decide (a = "/"%char) then last_segment s
    else if contains_slash s then last_segment s else String a s.
Proof.
  unfold last_segment at 1. simpl.
  destruct (bool_decide (a = "/"%char)); [reflexivity|].
  apply last_segment_from_spec.
Qed.

(** What [split('/')[-1]] returns has no ['/']. *)
Lemma last_segment_no_slash (s : string) : contains_slash (last_segment s) = false.
Proof.
  induction s as [|a s IH]; [reflexivity|].
  rewrite last_segment_cons.
  destruct (bool_decide (a = "/"%char)) eqn:Ea; [exact IH|].
  destruct (contains_slash s) eqn:Es; [exact IH|].
  by rewrite contains_slash_cons, Ea, Es.
Qed.

(** A string that has a ['/'] ends with a ['/'] and its last segment. *)
Lemma last_segment_suffix (s : string) :
  contains_slash s = true → ∃ prefix, s = prefix +:+ "/" +:+ last_segment s.
Proof.
  induction s as [|a s IH]; [discriminate|].
  rewrite contains_slash_cons, last_segment_cons.
  destruct (contains_slash s) eqn:Es.
  - intros _. destruct (IH eq_refl) as [prefix Hprefix].
    exists (String a prefix).
    destruct (bool_decide (a = "/"%char));
      change (String a s = String a (prefix +:+ "/" +:+ last_segment s));
      f_equal; exact Hprefix.
  - rewrite orb_false_r. intros Ea. rewrite Ea.
    apply bool_decide_eq_true in Ea as ->. exists "".
    assert (last_segment s = s) as ->; [|reflexivity].
    unfold last_segment. by rewrite last_segment_from_spec, Es.
Qed.

(** X8. Every patient id the loop over the entries collects as referenced
    is what follows the last ['/'] of the [subject.reference] of one of the
    entries: the reference ends with ['/'] and the id, and the id itself
    has no ['/']. *)
Theorem referenced_ids_are_last_segments (entries : list json)
    (patient_refs actual_patients : gset pykey) :
  scan_entries entries (∅, ∅) = Ok (patient_refs, actual_patients) →
  ∀ key, key ∈ patient_refs →
    ∃ entry ref prefix id,
      entry ∈ entries
      ∧ reference_of (resource_of entry) = Some ref
      ∧ key = KStr id
      ∧ ref = prefix +:+ "/" +:+ id
      ∧ contains_slash id = false.
Proof.
  intros Hscan key Hkey.
  apply scan_entries_inv in Hscan as [-> _].
  rewrite (left_id_L ∅ (∪)) in Hkey. unfold referenced_ids in Hkey.
  apply elem_of_keys in Hkey as (entry & Hin & Hid).
  unfold referenced_id in Hid.
  destruct (is_patient _); [discriminate|].
  destruct (reference_of _) as [ref|] eqn:Href; [|discriminate].
  destruct (is_substring "/" ref) eqn:Hslash; [|discriminate].
  injection Hid as <-.
  destruct (last_segment_suffix ref Hslash) as [prefix Hprefix].
  exists entry, ref, prefix, (last_segment ref).
  split; [exact Hin|]. split; [exact Href|]. split; [reflexivity|].
  split; [exact Hprefix | apply last_segment_no_slash].
Qed.

Lemma referenced_ids_are_last_segments_witness :
  ∃ entry ref prefix id,
    entry ∈ [patient_entry "1";
             observation_entry "http://hapi.fhir.org/baseR4/Patient/2"]
    ∧ reference_of (resource_of entry) = Some ref
    ∧ KStr "2" = KStr id
    ∧ ref = prefix +:+ "/" +:+ id
    ∧ contains_slash id = false.
Proof.
  apply (referenced_ids_are_last_segments
           [patient_entry "1";
            observation_entry "http://hapi.fhir.org/baseR4/Patient/2"]
           {[ KStr "2" ]} {[ KStr "1" ]}).
  - vm_compute. reflexivity.
  - by apply elem_of_singleton.
Defined.

(** * Further properties of the gateway and the assessment *)

Lemma record_of_operation_outcome `{Runtime} (code text : string) :
  record_of (Ok (operation_outcome code text)) = failed_request_record code text.
Proof.
  unfold record_of, assess_document. simpl.
  rewrite validate_operation_outcome. reflexivity.
Qed.

(** The scores of the valid results of a validation. *)
Lemma valid_scores (response : gmap string json) (v : ValidationResult) :
  _validate_fhir_response response = Ok v →
  is_valid v = true →
  20 <= _calculate_quality_score v <= 100.
Proof.
  intros Hv Hvalid. destruct (validate_cases _ _ Hv)
    as [(_ & Hinvalid & _) | [[Hbundle _] | (_ & _ & _ & Hissues & Hquality)]].
  - congruence.
  - rewrite (bundle_score _ _ Hbundle Hv).
    destruct (orphaned_patient_refs _), (py_eq _ (JNum 0)); lia.
  - rewrite (score_of_valid _ Hvalid). unfold deductions, count_severity.
    rewrite Hissues, Hquality. simpl. lia.
Qed.

Section GatewayCases.
Context `{Runtime}.
Variable self : FHIRClient.

Lemma handle_exception_codes (e : exn) :
  ∃ code text,
    handle_exceptions (Raise e) = Ok (operation_outcome code text)
    ∧ code ∈ outcome_codes.
Proof.
  unfold outcome_codes. destruct e; simpl; eexists _, _;
    (split; [reflexivity | set_solver]).
Qed.

(** What the body of the [try] and its handlers make of a reply. *)
Lemma request_cases (endpoint : string) (reply : result response) :
  ∃ d, handle_exceptions (request_body endpoint reply) = Ok d
       ∧ ((∃ r, reply = Ok r ∧ 200 <= status_code r <= 299
                ∧ body_json r = Ok (JObj d))
          ∨ (∃ code text, d = operation_outcome code text ∧ code ∈ outcome_codes)).
Proof.
  assert (∀ code text, code ∈ outcome_codes →
            ∃ d, Ok (operation_outcome code text) = Ok d
                 ∧ ((∃ r, reply = Ok r ∧ 200 <= status_code r <= 299
                          ∧ body_json r = Ok (JObj d))
                    ∨ (∃ code' text', d = operation_outcome code' text'
                                      ∧ code' ∈ outcome_codes))) as Houtcome.
  { intros code text Hcode. eexists. split; [reflexivity|]. right. eauto. }
  assert (∀ e, ∃ d, handle_exceptions (Raise e) = Ok d
                    ∧ ((∃ r, reply = Ok r ∧ 200 <= status_code r <= 299
                             ∧ body_json r = Ok (JObj d))
                       ∨ (∃ code' text', d = operation_outcome code' text'
                                         ∧ code' ∈ outcome_codes))) as Hraise.
  { intros e. destruct (handle_exception_codes e) as (code & text & -> & Hcode).
    by apply Houtcome. }
  destruct reply as [r|e]; [|apply Hraise].
  destruct (request_body endpoint (Ok r)) as [d|e] eqn:Hbody; [|apply Hraise].
  exists d. split; [reflexivity|].
  unfold request_body, raise_for_status in Hbody. simpl in Hbody.
  assert (∀ code text, code ∈ outcome_codes →
            Ok (operation_outcome code text) = Ok d →
            (∃ r0, Ok r = Ok r0 ∧ 200 <= status_code r0 <= 299
                   ∧ body_json r0 = Ok (JObj d))
            ∨ (∃ code' text', d = operation_outcome code' text'
                              ∧ code' ∈ outcome_codes)) as Hbuilt.
  { intros code text Hcode [= <-]. right. eauto. }
  destruct (Z.eqb_spec (status_code r) 404);
    [eapply Hbuilt; [|exact Hbody]; unfold outcome_codes; set_solver|].
  destruct (Z.eqb_spec (status_code r) 401);
    [eapply Hbuilt; [|exact Hbody]; unfold outcome_codes; set_solver|].
  destruct (Z.eqb_spec (status_code r) 403);
    [eapply Hbuilt; [|exact Hbody]; unfold outcome_codes; set_solver|].
  destruct (Z.leb_spec 200 (status_code r)); simpl in Hbody; [|discriminate].
  destruct (Z.leb_spec (status_code r) 299); simpl in Hbody; [|discriminate].
  unfold decode_body in Hbody.
  destruct (body_json r) as [[| | | | |fields]|e] eqn:Hjson; try discriminate.
  - injection Hbody as ->. left. exists r. auto.
  - destruct e; try discriminate.
    eapply Hbuilt; [|exact Hbody]. unfold outcome_codes. set_solver.
Qed.

Lemma make_request_ok (method endpoint : string)
    (kwargs : list (string * json)) (sent : list request) (req : request) :
  build_request self method endpoint kwargs = Ok req →
  _make_request self method endpoint kwargs sent
  = (handle_exceptions (request_body endpoint (client_request sent req)),
     sent ++ [req]).
Proof. intros Hreq. unfold _make_request. by rewrite Hreq. Qed.

Lemma make_request_raise (method endpoint : string)
    (kwargs : list (string * json)) (sent : list request) (e : exn) :
  build_request self method endpoint kwargs = Raise e →
  _make_request self method endpoint kwargs sent = (Raise e, sent).
Proof. intros Hreq. unfold _make_request. by rewrite Hreq. Qed.

(** X9. [_make_request] raises only the exception that building the
    request raised (line 72), and then it has sent nothing.  Once the
    request is built, whatever the client does, it returns either the
    JSON object the server sent, and this only for a status in 200..299
    and unchanged, or one of its own outcome documents, whose code is one
    of "not-found", "security", "forbidden", "invalid", "timeout" and
    "exception". *)
Theorem gateway_returns_body_or_outcome
    (method endpoint : string) (kwargs : list (string * json))
    (sent : list request) :
  (∀ e, build_request self method endpoint kwargs = Raise e →
        _make_request self method endpoint kwargs sent = (Raise e, sent))
  ∧ ∀ req, build_request self method endpoint kwargs = Ok req →
    let reply := client_request sent req in
    let document := (_make_request self method endpoint kwargs sent).1 in
    (∃ d, document = Ok d
          ∧ ((∃ r, reply = Ok r ∧ 200 <= status_code r <= 299
                   ∧ body_json r = Ok (JObj d))
             ∨ (∃ code text, d = operation_outcome code text
                             ∧ code ∈ outcome_codes)))
    ∧ (∀ r d, reply = Ok r → 200 <= status_code r <= 299 →
              body_json r = Ok (JObj d) → document = Ok d).
Proof.
  split; [intros e; apply make_request_raise|].
  intros req Hreq reply document. subst document.
  rewrite (make_request_ok _ _ _ _ _ Hreq). fold reply. simpl.
  split; [apply request_cases|].
  intros r d Hreply Hstatus Hbody.
  rewrite Hreply. unfold request_body, raise_for_status. simpl.
  destruct (Z.eqb_spec (status_code r) 404); [lia|].
  destruct (Z.eqb_spec (status_code r) 401); [lia|].
  destruct (Z.eqb_spec (status_code r) 403); [lia|].
  destruct (Z.leb_spec 200 (status_code r)); [|lia].
  destruct (Z.leb_spec (status_code r) 299); [|lia].
  simpl. unfold decode_body. by rewrite Hbody.
Qed.

(** X10. One iteration of the loop of [assess_data_quality] always stores
    a record.  When the URL of the category cannot be built, the record
    is [accessible] false, score 0 and the text of that exception under
    [error].  Once the request is built, a request that does not bring
    back a JSON object with a status in 200..299 gives the record of a
    failed request: [accessible] false, [total_available] 0, score 0, the
    outcome as the only issue, and no [error] key; the [error] key is then
    set only when the document the server itself sent made the validation
    raise, and it holds the text of that exception. *)
Theorem failed_request_record_has_no_error (resource : string)
    (sent : list request) :
  ∃ record,
    (assess_resource self resource sent).1 = Ok record
    ∧ (∀ e, build_request self "GET" resource sample_search = Raise e →
            record = mkResourceAssessment false None None (Some (exn_str e)) 0)
    ∧ ∀ req, build_request self "GET" resource sample_search = Ok req →
        let reply := client_request sent req in
        ((∃ r d, reply = Ok r ∧ 200 <= status_code r <= 299
                 ∧ body_json r = Ok (JObj d))
         ∨ (∃ code text, code ∈ outcome_codes
                         ∧ record = failed_request_record code text))
        ∧ (∀ message, error record = Some message →
             ∃ r d e, reply = Ok r ∧ 200 <= status_code r <= 299
                      ∧ body_json r = Ok (JObj d)
                      ∧ _validate_fhir_response d = Raise e
                      ∧ message = exn_str e).
Proof.
  exists (record_of (_make_request self "GET" resource sample_search sent).1).
  split.
  { unfold assess_resource, record_of, assess_guarded.
    destruct (_make_request self "GET" resource sample_search sent)
      as [document sent']. simpl. by destruct (assess_document document). }
  split.
  { intros e He. by rewrite (make_request_raise _ _ _ _ _ He). }
  intros req Hreq reply. rewrite (make_request_ok _ _ _ _ _ Hreq). fold reply.
  simpl.
  destruct (request_cases resource reply) as (d & -> & Hcases).
  destruct Hcases as [(r & Hreply & Hstatus & Hbody) | (code & text & -> & Hcode)].
  - split; [left; exists r, d; auto|].
    intros message. unfold record_of, assess_document. simpl.
    destruct (_validate_fhir_response d) as [v|e] eqn:Hv; simpl; [discriminate|].
    intros [= <-]. exists r, d, e. auto.
  - rewrite record_of_operation_outcome.
    split; [right; exists code, text; by split | discriminate].
Qed.

End GatewayCases.

Lemma gateway_returns_body_or_outcome_witness :
  (@_make_request mixed_runtime test_client "GET" "Observation" sample_search
     [mkRequest "GET" "https://hapi.fhir.org/baseR4/Patient" [] []]).1
  = Ok clean_bundle
  ∧ @_make_request checked_runtime ipv6_client "GET" "Condition" [] []
    = (Raise (ValueError "Invalid IPv6 URL"), []).
Proof.
  split.
  - destruct (@gateway_returns_body_or_outcome mixed_runtime test_client
                "GET" "Observation" sample_search
                [mkRequest "GET" "https://hapi.fhir.org/baseR4/Patient" [] []])
      as [_ Hbuilt].
    destruct (Hbuilt _ eq_refl) as [_ Hbody].
    apply (Hbody (mkResponse 200 (Ok (JObj clean_bundle))));
      [reflexivity | |reflexivity].
    simpl. lia.
  - destruct (@gateway_returns_body_or_outcome checked_runtime ipv6_client
                "GET" "Condition" [] []) as [Hraise _].
    exact (Hraise _ eq_refl).
Defined.

Lemma failed_request_record_has_no_error_witness :
  ∃ record,
    (@assess_resource mixed_runtime test_client "Patient" []).1 = Ok record
    ∧ error record = Some "'NoneType' object has no attribute 'get'"
    ∧ ∃ d e, _validate_fhir_response d = Raise e
             ∧ "'NoneType' object has no attribute 'get'" = exn_text e.
Proof.
  destruct (@failed_request_record_has_no_error mixed_runtime test_client
              "Patient" []) as (record & Hrecord & _ & Hbuilt).
  exists record. split; [exact Hrecord|].
  assert (error record = Some "'NoneType' object has no attribute 'get'")
    as Herror by (vm_compute in Hrecord; by injection Hrecord as <-).
  split; [exact Herror|].
  destruct (Hbuilt _ eq_refl) as [_ Hmessage].
  destruct (Hmessage _ Herror) as (r & d & e & _ & _ & _ & Hraise & Htext).
  exists d, e. split; [exact Hraise | exact Htext].
Defined.

(** ** The average of an assessment the program produced *)

Lemma sum_scores_bounds (records : list (string * ResourceAssessment)) :
  Forall (fun item => accessible item.2 = true →
                      20 <= data_quality_score item.2 <= 100) records →
  let scores :=
    (fun item => data_quality_score item.2)
      <$> filter (fun item => accessible item.2 = true) records in
  20 * Z.of_nat (length scores) <= sum_scores scores
  ∧ sum_scores scores <= 100 * Z.of_nat (length scores).
Proof.
  induction 1 as [|item records Hitem _ IH]; [simpl; unfold sum_scores; simpl; lia|].
  cbv zeta in *. rewrite filter_cons.
  destruct (decide (accessible item.2 = true)) as [Haccessible|_]; [|exact IH].
  specialize (Hitem Haccessible). rewrite fmap_cons.
  revert IH.
  generalize ((fun item0 : string * ResourceAssessment =>
                 data_quality_score item0.2)
                <$> filter (fun item0 => accessible item0.2 = true) records).
  intros scores IH. unfold sum_scores in *. simpl foldr. simpl length. lia.
Qed.

Lemma average_bounds (overall_score : Z) (resource_count : nat) :
  (0 < resource_count)%nat →
  20 * Z.of_nat resource_count <= overall_score →
  overall_score <= 100 * Z.of_nat resource_count →
  (20 <= inject_Z overall_score / inject_Z (Z.of_nat resource_count))%Q
  ∧ (inject_Z overall_score / inject_Z (Z.of_nat resource_count) <= 100)%Q.
Proof.
  intros Hcount Hlow Hhigh.
  assert (0 < inject_Z (Z.of_nat resource_count))%Q as Hpositive
    by (unfold Qlt; simpl; lia).
  split.
  - apply Qle_shift_div_l; [exact Hpositive|]. unfold Qle. simpl. lia.
  - apply Qle_shift_div_r; [exact Hpositive|]. unfold Qle. simpl. lia.
Qed.

Section ProducedAssessment.
Context `{Runtime}.
Variable self : FHIRClient.

Lemma record_of_accessible_score (document : result (gmap string json)) :
  accessible (record_of document) = true →
  20 <= data_quality_score (record_of document) <= 100.
Proof.
  unfold record_of, assess_document.
  destruct document as [d|e]; simpl; [|discriminate].
  destruct (_validate_fhir_response d) as [v|e] eqn:Hv; simpl; [|discriminate].
  intros Hvalid. by apply (valid_scores d).
Qed.

Lemma category_records_scores (resources : list string) (sent : list request) :
  Forall (fun item => accessible item.2 = true →
                      20 <= data_quality_score item.2 <= 100)
         (category_records self resources sent).
Proof.
  revert sent. induction resources as [|resource rest IH]; intros sent;
    [constructor|].
  simpl. constructor; [apply record_of_accessible_score | apply IH].
Qed.

(** X11. When the caller reports an average for an assessment that
    [assess_data_quality] produced, the average lies between 20 and 100: an
    accessible category never scores less than 20, and the categories that
    are not accessible do not count. *)
Theorem reported_average_between_20_and_100
    (resource_type : option string) (sent : list request)
    (assessment : Assessment) (average : Q) :
  (assess_data_quality self resource_type sent).1 = Ok assessment →
  overall_average assessment = Some average →
  (20 <= average)%Q ∧ (average <= 100)%Q.
Proof.
  rewrite assess_data_quality_spec. simpl. intros [= <-].
  unfold overall_average. simpl. rewrite fold_add_record. cbv zeta.
  pose proof (sum_scores_bounds _
                (category_records_scores (test_resources resource_type) sent))
    as [Hlow Hhigh].
  cbv zeta in Hlow, Hhigh. revert Hlow Hhigh.
  generalize ((fun item : string * ResourceAssessment => data_quality_score item.2)
                <$> filter (fun item => accessible item.2 = true)
                      (category_records self (test_resources resource_type) sent)).
  intros scores Hlow Hhigh. simpl.
  destruct (bool_decide (0 < length scores)%nat) eqn:Hcount; [|discriminate].
  apply bool_decide_eq_true in Hcount. intros [= <-].
  rewrite Z.add_0_l. by apply average_bounds.
Qed.

End ProducedAssessment.

Lemma reported_average_between_20_and_100_witness :
  ∃ assessment average,
    (@assess_data_quality mixed_runtime test_client None []).1 = Ok assessment
    ∧ overall_average assessment = Some average
    ∧ (20 <= average)%Q ∧ (average <= 100)%Q.
Proof.
  destruct (@assess_data_quality mixed_runtime test_client None []).1
    as [assessment|e] eqn:Hassessment; [|vm_compute in Hassessment; discriminate].
  destruct (overall_average assessment) as [average|] eqn:Haverage.
  - exists assessment, average. split; [reflexivity|]. split; [exact Haverage|].
    exact (@reported_average_between_20_and_100 mixed_runtime test_client None []
             assessment average Hassessment Haverage).
  - vm_compute in Hassessment. injection Hassessment as <-.
    vm_compute in Haverage. discriminate.
Defined.

(** * Properties of the client's set-up *)

(** X12. [_make_request] sends one request when the URL can be built
    and none otherwise.  The request has the method asked for and the URL
    [urljoin] returned; it carries the headers Accept and Content-Type
    with the value "application/fhir+json", and it carries an
    Authorization header exactly when the client has a token that is not
    empty, with the value "Bearer <token>"; no header name occurs twice. *)
Theorem requests_carry_headers `{Runtime} (self : FHIRClient)
    (method endpoint : string) (kwargs : list (string * json))
    (sent : list request) :
  (∀ e, urljoin (base_url self +:+ "/") endpoint = Raise e →
        (_make_request self method endpoint kwargs sent).2 = sent)
  ∧ ∀ url, urljoin (base_url self +:+ "/") endpoint = Ok url →
    ∃ req,
      (_make_request self method endpoint kwargs sent).2 = sent ++ [req]
      ∧ req_method req = method
      ∧ req_url req = url
      ∧ ("Accept", "application/fhir+json") ∈ req_headers req
      ∧ ("Content-Type", "application/fhir+json") ∈ req_headers req
      ∧ (∀ value, ("Authorization", value) ∈ req_headers req
                  ↔ ∃ token, auth_token self = Some token ∧ token ≠ ""
                             ∧ value = "Bearer " +:+ token)
      ∧ NoDup (req_headers req).*1.
Proof.
  split.
  { intros e Hurl.
    by destruct (make_request_not_built self method endpoint kwargs sent e Hurl)
      as [_ ->]. }
  intros url Hurl.
  destruct (make_request_built self method endpoint kwargs sent url Hurl)
    as [_ ->].
  eexists. split; [reflexivity|]. split; [reflexivity|].
  split; [reflexivity|]. simpl.
  unfold _get_headers.
  destruct (auth_token self) as [token|];
    [destruct (decide (token = "")) as [->|Hne]|].
  - rewrite bool_decide_eq_true_2 by done.
    split; [set_solver|]. split; [set_solver|]. split.
    + intros value. split; [set_solver|]. by intros (token & [= <-] & Hne & _).
    + simpl. repeat constructor; set_solver.
  - rewrite bool_decide_eq_false_2 by done.
    split; [set_solver|]. split; [set_solver|]. split.
    + intros value. split.
      * intros Hin. exists token. split; [reflexivity|]. split; [exact Hne|].
        set_solver.
      * intros (token' & [= <-] & _ & ->). set_solver.
    + simpl. repeat constructor; set_solver.
  - split; [set_solver|]. split; [set_solver|]. split.
    + intros value. split; [set_solver|]. by intros (token & Hsome & _).
    + simpl. repeat constructor; set_solver.
Qed.

Lemma requests_carry_headers_witness :
  ∃ req,
    (@_make_request not_found_runtime
       (mkFHIRClient "https://hapi.fhir.org/baseR4" (Some "s3cr3t"))
       "GET" "Patient" [] []).2 = [req]
    ∧ req_url req = "https://hapi.fhir.org/baseR4/Patient"
    ∧ ("Authorization", "Bearer s3cr3t") ∈ req_headers req.
Proof.
  destruct (@requests_carry_headers not_found_runtime
              (mkFHIRClient "https://hapi.fhir.org/baseR4" (Some "s3cr3t"))
              "GET" "Patient" [] []) as [_ Hbuilt].
  destruct (Hbuilt "https://hapi.fhir.org/baseR4/Patient" eq_refl)
    as (req & Hsent & _ & Hurl & _ & _ & Hauthorization & _).
  exists req. split; [exact Hsent|]. split; [exact Hurl|].
  apply Hauthorization. exists "s3cr3t". split; [reflexivity|]. by split.
Defined.

Lemma rstrip_slash_spec (s : string) :
  (∃ n, s = rstrip_slash s +:+ slashes n)
  ∧ ends_with_slash (rstrip_slash s) = false.
Proof.
  induction s as [|a s [[n Hn] Hend]]; [split; [by exists 0%nat | reflexivity]|].
  simpl. destruct (rstrip_slash s) as [|b rest] eqn:Hrest.
  - destruct (decide (a = "/"%char)) as [->|Hne].
    + rewrite bool_decide_eq_true_2 by done.
      split; [|reflexivity]. exists (S n). simpl. by rewrite Hn at 1.
    + rewrite bool_decide_eq_false_2 by done. split.
      * exists n. simpl. by rewrite Hn at 1.
      * simpl. by rewrite bool_decide_eq_false_2.
  - split.
    + exists n.
      change (String a s = String a (String b rest +:+ slashes n)).
      f_equal. exact Hn.
    + exact Hend.
Qed.

Lemma rstrip_slash_fixed (s : string) :
  ends_with_slash s = false → rstrip_slash s = s.
Proof.
  induction s as [|a s IH]; [reflexivity|]. simpl.
  destruct s as [|b s'].
  - intros Ha. simpl. by rewrite Ha.
  - intros Hs. rewrite (IH Hs). reflexivity.
Qed.

(** X13. [__init__] removes every ['/'] at the end of the base URL and
    nothing else: the URL given is the URL kept followed by slashes, the URL
    kept does not end with ['/'], a URL without a trailing ['/'] is kept as
    it is, and initialising from a URL already kept changes nothing. *)
Theorem init_strips_trailing_slashes (url : string) (token : option string) :
  (∃ n, url = base_url (__init__ url token) +:+ slashes n)
  ∧ ends_with_slash (base_url (__init__ url token)) = false
  ∧ (ends_with_slash url = false → base_url (__init__ url token) = url)
  ∧ __init__ (base_url (__init__ url token)) token = __init__ url token
  ∧ auth_token (__init__ url token) = token.
Proof.
  destruct (rstrip_slash_spec url) as [Hsuffix Hend]. simpl.
  split; [exact Hsuffix|]. split; [exact Hend|].
  split; [apply rstrip_slash_fixed|]. split; [|reflexivity].
  unfold __init__. simpl. by rewrite (rstrip_slash_fixed _ Hend).
Qed.

Lemma init_strips_trailing_slashes_witness :
  base_url (__init__ "https://hapi.fhir.org/baseR4//" None)
  = "https://hapi.fhir.org/baseR4"
  ∧ base_url (__init__ "https://hapi.fhir.org/baseR4" None)
    = "https://hapi.fhir.org/baseR4".
Proof.
  split; [reflexivity|].
  destruct (init_strips_trailing_slashes "https://hapi.fhir.org/baseR4" None)
    as (_ & _ & Hfixed & _).
  apply Hfixed. reflexivity.
Defined.

(** * Properties of the tool "find_patients_with_conditions" *)

(** ** The order of strings *)

Lemma nat_of_ascii_inj (x y : ascii) : nat_of_ascii x = nat_of_ascii y → x = y.
Proof.
  intros E. rewrite <- (ascii_nat_embedding x), <- (ascii_nat_embedding y).
  by rewrite E.
Qed.

Global Instance string_le_total : Total string_le.
Proof.
  unfold string_le. intros a. induction a as [|x a IH]; intros b; [by left|].
  destruct b as [|y b]; [by right|]. simpl.
  destruct (Nat.ltb_spec (nat_of_ascii x) (nat_of_ascii y)); [by left|].
  destruct (Nat.ltb_spec (nat_of_ascii y) (nat_of_ascii x)); [by right|].
  assert (nat_of_ascii x = nat_of_ascii y) as E by lia.
  rewrite E, Nat.eqb_refl. apply IH.
Qed.

Global Instance string_le_trans : Transitive string_le.
Proof.
  unfold string_le. intros a. induction a as [|x a IH]; intros b c; [done|].
  destruct b as [|y b]; [discriminate|]. destruct c as [|z c]; [done|]. simpl.
  destruct (Nat.ltb_spec (nat_of_ascii x) (nat_of_ascii y)) as [Hxy|Hxy];
    destruct (Nat.ltb_spec (nat_of_ascii y) (nat_of_ascii z)) as [Hyz|Hyz];
    destruct (Nat.ltb_spec (nat_of_ascii x) (nat_of_ascii z)) as [Hxz|Hxz];
    try done; try lia.
  - destruct (Nat.eqb_spec (nat_of_ascii y) (nat_of_ascii z)); [lia | done].
  - destruct (Nat.eqb_spec (nat_of_ascii x) (nat_of_ascii y)); [lia | done].
  - destruct (Nat.eqb_spec (nat_of_ascii x) (nat_of_ascii y)) as [Exy|]; [|done].
    destruct (Nat.eqb_spec (nat_of_ascii y) (nat_of_ascii z)) as [Eyz|]; [|done].
    rewrite Exy, Eyz, Nat.eqb_refl. apply IH.
Qed.

(** ** The listing *)

Lemma sorted_ids_perm (patient_ids : gset string) :
  sorted_ids patient_ids ≡ₚ elements patient_ids.
Proof. apply merge_sort_Permutation. Qed.

Lemma elem_of_sorted_ids (patient_ids : gset string) (pid : string) :
  pid ∈ sorted_ids patient_ids ↔ pid ∈ patient_ids.
Proof. by rewrite sorted_ids_perm, elem_of_elements. Qed.

Lemma StronglySorted_app_between {A : Type} (R : relation A) (l1 l2 : list A) :
  StronglySorted R (l1 ++ l2) → ∀ x y, x ∈ l1 → y ∈ l2 → R x y.
Proof.
  induction l1 as [|z l1 IH]; intros Hsorted x y Hx Hy;
    [by apply not_elem_of_nil in Hx|].
  simpl in Hsorted. apply StronglySorted_inv in Hsorted as [Hrest Hall].
  apply elem_of_cons in Hx as [->|Hx]; [|by apply IH].
  rewrite Forall_forall in Hall. apply Hall. apply elem_of_app. by right.
Qed.

(** X14. The listing of the tool shows the number of distinct patient
    ids, then at most 20 of them, one per line: the ids shown are in
    ascending order, without repetition, and they are the smallest ones
    (every id that is not shown is above every id shown); a last line
    tells how many ids are not shown, exactly when there are more than 20. *)
Theorem listing_shows_smallest_ids (patient_ids : gset string) :
  let shown := take 20 (sorted_ids patient_ids) in
  patient_id_lines patient_ids
  = ["Found " +:+ str_of_nat (size patient_ids)
     +:+ " unique patients with conditions"]
    ++ (if bool_decide (size patient_ids = 0)%nat
        then ["No patient IDs found in condition records"]
        else [newline +:+ "Patient IDs:"]
             ++ ((fun pid => "- " +:+ pid) <$> shown)
             ++ (if bool_decide (20 < size patient_ids)%nat
                 then ["... and " +:+ str_of_nat (size patient_ids - 20)
                       +:+ " more"]
                 else []))
  ∧ length shown = (size patient_ids `min` 20)%nat
  ∧ StronglySorted string_le shown
  ∧ NoDup shown
  ∧ (∀ pid, pid ∈ shown → pid ∈ patient_ids)
  ∧ (∀ pid other, pid ∈ shown → other ∈ patient_ids → other ∉ shown →
                  string_le pid other).
Proof.
  intros shown.
  assert (length (sorted_ids patient_ids) = size patient_ids) as Hlength
    by (by rewrite sorted_ids_perm).
  assert (StronglySorted string_le (sorted_ids patient_ids)) as Hsorted
    by apply (StronglySorted_merge_sort _).
  assert (NoDup (sorted_ids patient_ids)) as Hnodup
    by (rewrite sorted_ids_perm; apply NoDup_elements).
  rewrite <- (take_drop 20 (sorted_ids patient_ids)) in Hsorted, Hnodup.
  fold shown in Hsorted, Hnodup.
  split; [|split; [|split; [|split; [|split]]]].
  - unfold patient_id_lines. fold shown.
    destruct (decide (patient_ids = ∅)) as [->|Hne].
    + rewrite bool_decide_eq_true_2 by done. simpl.
      rewrite bool_decide_eq_true_2 by (vm_compute; reflexivity).
      reflexivity.
    + rewrite (bool_decide_eq_false_2 (patient_ids = ∅)) by done. simpl.
      rewrite (bool_decide_eq_false_2 (size patient_ids = 0%nat)).
      2:{ intros Hsize. by apply size_empty_inv, leibniz_equiv in Hsize. }
      destruct (bool_decide (20 < size patient_ids)%nat); simpl;
        by rewrite <- ?app_assoc, ?app_nil_r.
  - unfold shown. rewrite length_take, Hlength. lia.
  - by apply StronglySorted_app_1_l in Hsorted.
  - by apply NoDup_app in Hnodup as [Hshown _].
  - intros pid Hin. apply elem_of_sorted_ids.
    unfold shown in Hin. by apply elem_of_take in Hin as (i & ?%list_elem_of_lookup_2 & _).
  - intros pid other Hpid Hother Hhidden.
    apply (StronglySorted_app_between _ _ _ Hsorted); [exact Hpid|].
    apply elem_of_sorted_ids in Hother.
    rewrite <- (take_drop 20 (sorted_ids patient_ids)) in Hother.
    apply elem_of_app in Hother as [Hin|Hin]; [contradiction | exact Hin].
Qed.

Lemma listing_shows_smallest_ids_witness :
  patient_id_lines {[ "30"; "7"; "100" ]}
  = ["Found 3 unique patients with conditions";
     newline +:+ "Patient IDs:"; "- 100"; "- 30"; "- 7"].
Proof.
  destruct (listing_shows_smallest_ids {[ "30"; "7"; "100" ]}) as [Hlines _].
  rewrite Hlines. vm_compute. reflexivity.
Defined.

(** ** The ids the tool collects *)

(** Whenever the body of the loop of lines 710-716 completes, it has
    added the id the entry refers to, if it refers to one. *)
Lemma collect_patient_id_inv (entry : json) (ids ids' : gset string) :
  collect_patient_id entry ids = Ok ids' →
  ids' = ids ∪ opt_id (subject_id entry).
Proof.
  unfold collect_patient_id. intros H.
  bind_inv H resource Hres. bind_inv H has_subject Hsub.
  destruct entry as [| | | | |fields]; try discriminate.
  injection Hres as <-.
  assert (∀ x, dict_get fields "resource" (JObj ∅) = x →
               (∀ r, x ≠ JObj r) → resource_of (JObj fields) = ∅) as Hother.
  { intros x Hx Hnot. simpl. unfold dict_get in Hx.
    destruct (fields !! "resource") as [[| | | | |r]|]; try reflexivity.
    by destruct (Hnot r). }
  assert (∀ r, dict_get fields "resource" (JObj ∅) = JObj r →
               resource_of (JObj fields) = r) as Hobject.
  { intros r Hx. simpl. unfold dict_get in Hx.
    destruct (fields !! "resource") as [x|]; by simplify_eq. }
  unfold subject_id.
  destruct (dict_get fields "resource" (JObj ∅)) as [| | |s|l|r] eqn:Hresource;
    simpl in Hsub; try discriminate.
  - (* a string *)
    rewrite (Hother _ eq_refl) by done. unfold reference_of. rewrite lookup_empty.
    injection Hsub as <-. destruct (is_substring "subject" s); [discriminate|].
    injection H as <-. simpl. set_solver.
  - (* a list *)
    rewrite (Hother _ eq_refl) by done. unfold reference_of. rewrite lookup_empty.
    injection Hsub as <-. destruct (existsb _ l); [discriminate|].
    injection H as <-. simpl. set_solver.
  - (* an object *)
    rewrite (Hobject _ eq_refl). injection Hsub as <-. unfold reference_of.
    destruct (r !! "subject") as [subject|] eqn:Esub.
    2:{ rewrite bool_decide_eq_false_2 in H by (by intros [? ?]).
        injection H as <-. simpl. set_solver. }
    rewrite bool_decide_eq_true_2 in H by eauto.
    bind_inv H subject' Hsubj.
    simpl in Hsubj. rewrite Esub in Hsubj. injection Hsubj as <-.
    bind_inv H has_reference Href.
    destruct has_reference.
    2:{ injection H as <-.
        destruct subject as [| | | | |sub]; simpl in *; try discriminate;
          try (simpl; set_solver).
        injection Href as Href. apply bool_decide_eq_false in Href.
        destruct (sub !! "reference") eqn:E; [exfalso; eauto|].
        simpl. set_solver. }
    bind_inv H ref Hgetref.
    destruct subject as [| | | | |sub]; simpl in Hgetref; try discriminate.
    destruct (sub !! "reference") as [ref'|] eqn:Eref; [|discriminate].
    injection Hgetref as ->.
    bind_inv H slash Hslash.
    destruct slash.
    + bind_inv H seg Hlast.
      destruct ref as [| | |str| |]; simpl in Hlast; try discriminate.
      simpl in Hslash. injection Hslash as Hslash. simplify_eq.
      rewrite Hslash. reflexivity.
    + injection H as <-.
      destruct ref as [| | |str| |]; simpl in *; try discriminate; simplify_eq;
        try rewrite Hslash; simpl; set_solver.
Qed.

Lemma collect_patient_ids_inv (entries : list json) (ids ids' : gset string) :
  collect_patient_ids entries ids = Ok ids' →
  ids' = ids ∪ list_to_set (omap subject_id entries).
Proof.
  revert ids. induction entries as [|entry entries IH]; intros ids H.
  - injection H as <-. simpl. set_solver.
  - simpl in H. bind_inv H ids1 Hentry.
    apply collect_patient_id_inv in Hentry as ->.
    apply IH in H as ->.
    change (omap subject_id (entry :: entries))
      with (match subject_id entry with
            | Some id => id :: omap subject_id entries
            | None => omap subject_id entries
            end).
    destruct (subject_id entry); simpl; set_solver.
Qed.

(** X15. On the same entries, every patient id that the validator counts
    as referenced is among the ids that the tool
    "find_patients_with_conditions" collects; the tool collects in addition
    the ids that Patient entries refer to, which the validator skips. *)
Theorem validator_references_are_collected (entries : list json)
    (patient_refs actual_patients : gset pykey) (patient_ids : gset string) :
  scan_entries entries (∅, ∅) = Ok (patient_refs, actual_patients) →
  collect_patient_ids entries ∅ = Ok patient_ids →
  (∀ key, key ∈ patient_refs → ∃ id, key = KStr id ∧ id ∈ patient_ids)
  ∧ (∀ id, id ∈ patient_ids →
       KStr id ∈ patient_refs
       ∨ ∃ entry, entry ∈ entries ∧ is_patient (resource_of entry) = true
                  ∧ subject_id entry = Some id).
Proof.
  intros Hscan Hcollect.
  apply scan_entries_inv in Hscan as [-> _].
  apply collect_patient_ids_inv in Hcollect as ->.
  rewrite !(left_id_L ∅ (∪)). unfold referenced_ids. split.
  - intros key Hkey. apply elem_of_keys in Hkey as (entry & Hin & Hid).
    unfold referenced_id in Hid.
    destruct (is_patient _); [discriminate|].
    destruct (reference_of _) as [ref|] eqn:Href; [|discriminate].
    destruct (is_substring "/" ref) eqn:Hslash; [|discriminate].
    injection Hid as <-. exists (last_segment ref). split; [reflexivity|].
    apply elem_of_list_to_set, list_elem_of_omap. exists entry.
    split; [exact Hin|]. unfold subject_id. by rewrite Href, Hslash.
  - intros id Hid.
    apply elem_of_list_to_set, list_elem_of_omap in Hid as (entry & Hin & Hid).
    destruct (is_patient (resource_of entry)) eqn:Hpatient.
    + right. by exists entry.
    + left. apply elem_of_keys. exists entry. split; [exact Hin|].
      unfold referenced_id. rewrite Hpatient. unfold subject_id in Hid.
      destruct (reference_of _) as [ref|]; [|discriminate].
      destruct (is_substring "/" ref); [|discriminate]. by injection Hid as <-.
Qed.

Lemma validator_references_are_collected_witness :
  scan_entries [patient_entry "1"; observation_entry "Patient/2"] (∅, ∅)
  = Ok ({[ KStr "2" ]}, {[ KStr "1" ]})
  ∧ collect_patient_ids [patient_entry "1"; observation_entry "Patient/2"] ∅
    = Ok {[ "2" ]}
  ∧ ∃ id, KStr "2" = KStr id ∧ id ∈ ({[ "2" ]} : gset string).
Proof.
  assert (Hscan : scan_entries
                    [patient_entry "1"; observation_entry "Patient/2"] (∅, ∅)
                  = Ok ({[ KStr "2" ]}, {[ KStr "1" ]}))
    by (vm_compute; reflexivity).
  assert (Hcollect : collect_patient_ids
                       [patient_entry "1"; observation_entry "Patient/2"] ∅
                     = Ok {[ "2" ]})
    by (vm_compute; reflexivity).
  split; [exact Hscan|]. split; [exact Hcollect|].
  apply (proj1 (validator_references_are_collected _ _ _ _ Hscan Hcollect)).
  set_solver.
Defined.

(** ** The reply of the tool *)

Lemma operation_outcome_no_entry (code text : string) :
  operation_outcome code text !! "entry" = None.
Proof. vm_compute. reflexivity. Qed.

Section FindPatients.
Context `{Runtime}.
Variable client : FHIRClient.

(** X16. When the request of the tool is built and does not bring back a
    JSON object with a status in 200..299 (the server is down, answers 404
    or 500, or sends something that is not JSON), the reply of the tool is
    the listing of no patient, "Found 0 unique patients with conditions"
    and "No patient IDs found in condition records": the failure itself is
    not reported. *)
Theorem failed_search_reads_as_no_patient (arguments : gmap string json)
    (sent : list request) (req : request) :
  arguments !! "self" = None →
  build_request client "GET" "Condition" [("params", JObj arguments)] = Ok req →
  (¬ ∃ r d, client_request sent req = Ok r ∧ 200 <= status_code r <= 299
            ∧ body_json r = Ok (JObj d)) →
  call_find_patients_with_conditions (Some client) arguments sent
  = (join_lines ["Found 0 unique patients with conditions";
                 "No patient IDs found in condition records"],
     sent ++ [req]).
Proof.
  intros Hself Hreq Hfailed.
  unfold call_find_patients_with_conditions, find_patients_with_conditions.
  rewrite bool_decide_eq_false_2 by (rewrite Hself; by intros [? ?]).
  unfold search_conditions. rewrite (make_request_ok _ _ _ _ _ _ Hreq).
  destruct (request_cases "Condition" (client_request sent req))
    as (d & -> & [(r & Hreply & Hstatus & Hbody) | (code & text & -> & _)]).
  - destruct Hfailed. exists r, d. auto.
  - simpl. unfold dict_get. rewrite operation_outcome_no_entry. reflexivity.
Qed.


End FindPatients.

Lemma failed_search_reads_as_no_patient_witness :
  (@call_find_patients_with_conditions unreachable_runtime (Some test_client) ∅ []).1
  = join_lines ["Found 0 unique patients with conditions";
                "No patient IDs found in condition records"].
Proof.
  rewrite (@failed_search_reads_as_no_patient unreachable_runtime test_client ∅ []
             (mkRequest "GET" "https://hapi.fhir.org/baseR4/Condition"
                [("Accept", "application/fhir+json");
                 ("Content-Type", "application/fhir+json")]
                [("params", JObj ∅)]));
    [reflexivity | reflexivity | reflexivity |].
  intros (r & d & Hreply & _). discriminate.
Defined.

